(** * The GovInfo adapter for shillelagh: URI classification and row mapping

    A shallow embedding of [src/shillelagh_govinfo/govinfo.py].

    Conventions of the embedding.
    - A Python [str] is the [string] of its code points; the embedding
      covers the code points below 256, where the class [\d] of the [re]
      module is exactly [0-9] and [str.lower] is the Latin-1 case map.
    - A Python exception is a value of [exn]; a computation that may raise
      is a [result], threaded with the bind of the error monad.
    - The functions of the Python library that the adapter calls
      ([urlparse], [parse_qs], [unquote], [datetime.strptime], [int]) are
      parameters of the development (Section [Adapter]); Module [Plain]
      gives instances of them that run the examples. *)

From Stdlib Require Import ZArith Ascii String List Lia.
From stdpp Require Import base option list gmap strings.

Local Open Scope string_scope.
Local Open Scope list_scope.

(** ** Exceptions and the error monad *)

Inductive exn : Type :=
  | IndexError
  | KeyError
  | TypeError
  | ValueError
  | AttributeError
  | UnboundLocalError
  | NotImplementedError
  | ProgrammingError
  | RequestException
  | JSONDecodeError.

Inductive result (A : Type) : Type :=
  | Ok (a : A)
  | Raise (e : exn).
Arguments Ok {A} a.
Arguments Raise {A} e.

#[global] Instance result_ret : MRet result := fun A a => Ok a.
#[global] Instance result_bind : MBind result :=
  fun A B f m => match m with Ok a => f a | Raise e => Raise e end.
#[global] Instance result_fmap : FMap result :=
  fun A B f m => match m with Ok a => Ok (f a) | Raise e => Raise e end.

Definition raises {A : Type} (r : result A) : Prop := exists e, r = Raise e.

(** ** Python sequences and strings *)

(** [l[i]] on a list: [IndexError] out of range. *)
Definition getitem {A : Type} (l : list A) (i : nat) : result A :=
  match l !! i with
  | Some x => Ok x
  | None => Raise IndexError
  end.

(** [d[k]] on a dict: [KeyError] when the key is absent. *)
Definition dict_getitem {V : Type} (d : gmap string V) (k : string) : result V :=
  match d !! k with
  | Some v => Ok v
  | None => Raise KeyError
  end.

(** [k in d] on a dict. *)
Definition dict_contains {V : Type} (k : string) (d : gmap string V) : bool :=
  bool_decide (is_Some (d !! k)).

(** [s.split(sep)] for a one-character separator: never empty, one more
    element than there are separators. *)
Fixpoint split (sep : ascii) (s : string) : list string :=
  match s with
  | EmptyString => [EmptyString]
  | String c rest =>
      if Ascii.eqb c sep then EmptyString :: split sep rest
      else match split sep rest with
           | hd :: tl => String c hd :: tl
           | [] => [String c EmptyString]
           end
  end.

(** [sep.join(parts)] for a one-character separator. *)
Fixpoint join (sep : ascii) (parts : list string) : string :=
  match parts with
  | [] => EmptyString
  | [part] => part
  | part :: rest => part +:+ String sep (join sep rest)
  end.

(** [c in s] for a character [c]. *)
Fixpoint occurs (c : ascii) (s : string) : bool :=
  match s with
  | EmptyString => false
  | String c' rest => Ascii.eqb c c' || occurs c rest
  end.

(** [str.lower], one character: A-Z and the Latin-1 capitals. *)
Definition lower_char (c : ascii) : ascii :=
  let n := nat_of_ascii c in
  if ((65 <=? n) && (n <=? 90)
      || (192 <=? n) && (n <=? 222) && negb (n =? 215))%nat
  then ascii_of_nat (n + 32)
  else c.

Fixpoint lower (s : string) : string :=
  match s with
  | EmptyString => EmptyString
  | String c rest => String (lower_char c) (lower rest)
  end.

(** ** The fragment of [re] used by [DATE_PATTERN]

    The pattern is a sequence of counted one-character atoms: [\d{4}] is
    [(Digit, 4)], a literal character is [(Lit c, 1)]. *)

Inductive atom : Type :=
  | Digit
  | Lit (c : ascii).

Definition regex : Type := list (atom * nat).

Definition is_digit (c : ascii) : bool :=
  let n := nat_of_ascii c in ((48 <=? n) && (n <=? 57))%nat.

Definition atom_matches (a : atom) (c : ascii) : bool :=
  match a with
  | Digit => is_digit c
  | Lit l => Ascii.eqb c l
  end.

(** Consume exactly [n] characters matching [a]; the rest of the subject. *)
Fixpoint match_counted (a : atom) (n : nat) (s : string) : option string :=
  match n with
  | O => Some s
  | S n' =>
      match s with
      | EmptyString => None
      | String c rest =>
          if atom_matches a c then match_counted a n' rest else None
      end
  end.

(** [bool(pattern.fullmatch(s))] *)
Fixpoint fullmatch (r : regex) (s : string) : bool :=
  match r with
  | [] => match s with EmptyString => true | _ => false end
  | (a, n) :: r' =>
      match match_counted a n s with
      | Some rest => fullmatch r' rest
      | None => false
      end
  end.

(** The pattern unfolded into one atom per character of the subject, and
    the match of a subject against such a sequence. *)
Definition expand (r : regex) : list atom :=
  flat_map (fun an => repeat (fst an) (snd an)) r.

Fixpoint matches_atoms (atoms : list atom) (s : string) : bool :=
  match atoms, s with
  | [], EmptyString => true
  | a :: atoms', String c rest => atom_matches a c && matches_atoms atoms' rest
  | _, _ => false
  end.

(** ** Module constants *)

Definition COLLECTIONS : list string := ["bills"].

(** [re.compile(r"\d{4}-\d{2}-\d{2}T\d{2}:\d{2}:\d{2}Z")] *)
Definition DATE_PATTERN : regex :=
  [ (Digit, 4); (Lit "-", 1); (Digit, 2); (Lit "-", 1); (Digit, 2);
    (Lit "T", 1);
    (Digit, 2); (Lit ":", 1); (Digit, 2); (Lit ":", 1); (Digit, 2);
    (Lit "Z", 1) ]%nat.

(** ** Values of the host and of the remote API *)

(** The fields of [urllib.parse.ParseResult] that the adapter reads. *)
Record ParseResult : Type := {
  scheme : string;
  netloc : string;
  path : string;
  query : string
}.

(** A parsed JSON document, as [json.loads] gives it: a real number is
    kept as its literal, a dict as its items (keys distinct). *)
#[local] Unset Elimination Schemes.
Inductive json : Type :=
  | JNull
  | JBool (b : bool)
  | JInt (n : Z)
  | JFloat (literal : string)
  | JStr (s : string)
  | JList (items : list json)
  | JDict (items : list (string * json)).
#[local] Set Elimination Schemes.

(** [datetime.datetime], naive. *)
Record datetime : Type := {
  year : Z; month : Z; day : Z; hour : Z; minute : Z; second : Z
}.

Fixpoint assoc {V : Type} (k : string) (items : list (string * V)) : option V :=
  match items with
  | [] => None
  | (k', v) :: rest => if String.eqb k k' then Some v else assoc k rest
  end.

(** [v[k]] for a string key [k] on a JSON value. *)
Definition subscript (v : json) (k : string) : result json :=
  match v with
  | JDict items =>
      match assoc k items with
      | Some x => Ok x
      | None => Raise KeyError
      end
  | _ => Raise TypeError
  end.

(** [iter(v)] run to the end: the elements a [for] loop over [v] visits. *)
Definition iterate (v : json) : result (list json) :=
  match v with
  | JList items => Ok items
  | JDict items => Ok (map (fun kv => JStr (fst kv)) items)
  | JStr s => Ok (map (fun c => JStr (String c EmptyString)) (list_ascii_of_string s))
  | _ => Raise TypeError
  end.

(** ** Instances of the library functions for plain inputs *)

Module Plain.

Definition hex_val (c : ascii) : option nat :=
  let n := nat_of_ascii c in
  if ((48 <=? n) && (n <=? 57))%nat then Some (n - 48)
  else if ((65 <=? n) && (n <=? 70))%nat then Some (n - 55)
  else if ((97 <=? n) && (n <=? 102))%nat then Some (n - 87)
  else None.

(** [urllib.parse.unquote] on a string whose escapes are all below
    [%80]: an escape becomes its character, anything else stays. *)
Fixpoint unquote (s : string) : string :=
  match s with
  | EmptyString => EmptyString
  | String c t =>
      if Ascii.eqb c "%" then
        match t with
        | String h (String l rest) =>
            match hex_val h, hex_val l with
            | Some a, Some b =>
                String (ascii_of_nat (16 * a + b)) (unquote rest)
            | _, _ => String c (unquote t)
            end
        | _ => String c (unquote t)
        end
      else String c (unquote t)
  end.

(** [s.split(sep, 1)]: the part before the first [sep] and, when there
    is one, the part after it. *)
Fixpoint split_once (sep : ascii) (s : string) : string * option string :=
  match s with
  | EmptyString => (EmptyString, None)
  | String c rest =>
      if Ascii.eqb c sep then (EmptyString, Some rest)
      else let (a, b) := split_once sep rest in (String c a, b)
  end.

Fixpoint replace_char (old new : ascii) (s : string) : string :=
  match s with
  | EmptyString => EmptyString
  | String c rest =>
      String (if Ascii.eqb c old then new else c) (replace_char old new rest)
  end.

(** [urllib.parse.parse_qsl] with its defaults: fields separated by
    [&], a field without [=] or with a blank value is dropped. *)
Definition parse_qsl (qs : string) : list (string * string) :=
  flat_map
    (fun name_value =>
       match split_once "=" name_value with
       | (name, Some value) =>
           if String.eqb value "" then []
           else [(unquote (replace_char "+" " " name),
                  unquote (replace_char "+" " " value))]
       | (_, None) => []
       end)
    (split "&" qs).

(** [urllib.parse.parse_qs] with its defaults. *)
Definition parse_qs (qs : string) : gmap string (list string) :=
  fold_left
    (fun parsed_result nv =>
       match parsed_result !! fst nv with
       | Some values => <[fst nv := values ++ [snd nv]]> parsed_result
       | None => <[fst nv := [snd nv]]> parsed_result
       end)
    (parse_qsl qs) ∅.

Definition is_alpha (c : ascii) : bool :=
  let n := nat_of_ascii c in
  ((65 <=? n) && (n <=? 90) || (97 <=? n) && (n <=? 122))%nat.

Definition is_scheme_char (c : ascii) : bool :=
  is_alpha c || is_digit c
  || Ascii.eqb c "+" || Ascii.eqb c "-" || Ascii.eqb c ".".

Fixpoint all_chars (p : ascii -> bool) (s : string) : bool :=
  match s with
  | EmptyString => true
  | String c rest => p c && all_chars p rest
  end.

(** The part of [s] before the first character satisfying [stop], and
    the part from that character on. *)
Fixpoint break (stop : ascii -> bool) (s : string) : string * string :=
  match s with
  | EmptyString => (EmptyString, EmptyString)
  | String c rest =>
      if stop c then (EmptyString, s)
      else let (a, b) := break stop rest in (String c a, b)
  end.

(** [urllib.parse.urlparse] on a URI without blanks, control characters
    or [;] parameters: the scheme, then the authority after [//], then
    the path up to [?] and the query up to [#]. *)
Definition urlparse (uri : string) : result ParseResult :=
  let '(sch, url) :=
    match split_once ":" uri with
    | (String c0 pre, Some rest) =>
        if is_alpha c0 && all_chars is_scheme_char pre
        then (lower (String c0 pre), rest)
        else (EmptyString, uri)
    | _ => (EmptyString, uri)
    end in
  let '(loc, url) :=
    match url with
    | String "/" (String "/" rest) =>
        break (fun c => Ascii.eqb c "/" || Ascii.eqb c "?" || Ascii.eqb c "#") rest
    | _ => (EmptyString, url)
    end in
  if xorb (occurs "[" loc) (occurs "]" loc) then Raise ValueError
  else
    let url := fst (split_once "#" url) in
    let '(pth, qry) := split_once "?" url in
    Ok {| scheme := sch; netloc := loc; path := pth;
          query := default EmptyString qry |}.

Definition digit_val (c : ascii) : Z := Z.of_nat (nat_of_ascii c) - 48.

(** The value of a string of decimal digits. *)
Definition decimal (s : string) : Z :=
  fold_left (fun acc c => (10 * acc + digit_val c)%Z)
    (list_ascii_of_string s) 0%Z.

Definition is_leap (y : Z) : bool :=
  ((y mod 4 =? 0) && negb (y mod 100 =? 0) || (y mod 400 =? 0))%Z.

Definition days_in_month (y m : Z) : Z :=
  (if m =? 2 then (if is_leap y then 29 else 28)
   else if (m =? 4) || (m =? 6) || (m =? 9) || (m =? 11) then 30
   else 31)%Z.

(** [datetime.strptime(v, "%Y-%m-%dT%H:%M:%SZ")] on the zero-padded
    form of the timestamp; the format of the adapter is the only one
    covered, and Python also takes some fields without padding. *)
Definition strptime (v : json) (format : string) : result datetime :=
  match v with
  | JStr s =>
      if String.eqb format "%Y-%m-%dT%H:%M:%SZ" && fullmatch DATE_PATTERN s then
        let y := decimal (substring 0 4 s) in
        let m := decimal (substring 5 2 s) in
        let d := decimal (substring 8 2 s) in
        let hh := decimal (substring 11 2 s) in
        let mm := decimal (substring 14 2 s) in
        let ss := decimal (substring 17 2 s) in
        if ((1 <=? y) && (1 <=? m) && (m <=? 12) && (1 <=? d)
            && (d <=? days_in_month y m)
            && (hh <=? 23) && (mm <=? 59) && (ss <=? 59))%Z
        then Ok {| year := y; month := m; day := d;
                   hour := hh; minute := mm; second := ss |}
        else Raise ValueError
      else Raise ValueError
  | _ => Raise TypeError
  end.

(** [int(v)] on an int, a bool, a string of decimal digits, and on the
    values [int] has no conversion for; Python also takes signs, blanks
    and underscores in a string, and truncates a real. *)
Definition int (v : json) : result Z :=
  match v with
  | JInt n => Ok n
  | JBool b => Ok (if b then 1 else 0)%Z
  | JStr s =>
      if negb (String.eqb s "") && all_chars is_digit s then Ok (decimal s)
      else Raise ValueError
  | JFloat _ => Raise ValueError
  | JNull | JList _ | JDict _ => Raise TypeError
  end.

End Plain.

(** ** Values of shillelagh and of the transport *)

(** [shillelagh.filters.Filter], the filters a host may pass in [bounds]. *)
Inductive Filter : Type :=
  | Range (start stop : option json) (include_start include_end : bool)
  | Equal (value : json)
  | IsNull
  | IsNotNull.

(** [shillelagh.typing.RequestedOrder] *)
Inductive RequestedOrder : Type :=
  | Ascending
  | Descending.

(** [shillelagh.fields.Order] and the field classes the adapter declares. *)
Inductive Order : Type :=
  | NONE
  | ASCENDING
  | DESCENDING
  | ANY.

Inductive FieldClass : Type :=
  | FString
  | FInteger
  | FISODateTime.

Inductive FilterClass : Type :=
  | FRange.

Record Field : Type := {
  field_class : FieldClass;
  filters : list FilterClass;
  order : Order
}.

(** [requests_cache.CachedSession(...)], by the arguments it was built from. *)
Record CachedSession : Type := {
  cache_name : string;
  backend : string;
  kwargs : list (string * Z)
}.

(** Who performs an HTTP GET: the function [requests.get] of the
    [requests] module, or the method [get] of a session. *)
Inductive Transport : Type :=
  | requests_get
  | session_get (s : CachedSession).

(** One HTTP GET: the callee, the URL, the query parameters in order. *)
Record Request : Type := {
  via : Transport;
  req_url : string;
  req_params : list (string * string)
}.

(** The attributes [__init__] sets only for the collections endpoint. *)
Record CollectionsAttrs : Type := {
  collection : string;
  start_date : string;
  end_date : option string;
  offset : string;
  page_size : string
}.

(** The state of an adapter instance. An attribute that [__init__] sets
    under a condition is an [option]: [None] when it was never set. *)
Record GovInfoAPI : Type := {
  url : string;
  api_key : string;
  endpoint : string;
  collections_attrs : option CollectionsAttrs;
  _session : CachedSession;
  columns : option (list (string * Field))
}.

(** The dict that [get_rows] yields for one record. *)
Record Row : Type := {
  package_id : json;
  last_modified : datetime;
  package_link : json;
  doc_class : json;
  title : json;
  congress : Z;
  date_issued : json
}.

(** A generator object of [get_rows]: created and not yet started,
    suspended at the [yield] with the records still to visit, or finished. *)
Inductive generator : Type :=
  | Created (self : GovInfoAPI)
      (bounds : gmap string Filter) (order : list (string * RequestedOrder))
  | Suspended (rest : list json)
  | Finished.

(** What one [next(g)] gives its caller. *)
Inductive signal : Type :=
  | Yield (row : Row)
  | StopIteration
  | Raised (e : exn).

(** ** Fixtures: URIs and responses after [tests/test_govinfo.py] *)

Module Fixtures.

Definition collections_uri : string :=
  "https://api.govinfo.gov/collections/BILLS/2023-02-28T20%3A18%3A10Z/2023-03-01T20%3A18%3A10Z?offset=0&pageSize=1&api_key=44a3270074f30ea5a8f0051941fb6528".

Definition open_ended_uri : string :=
  "https://api.govinfo.gov/collections/BILLS/2018-01-28T20%3A18%3A10Z?offset=0&pageSize=1000&api_key=44a3270074f30ea5a8f0051941fb6528".

(** The record of the response that the test of the rows expects. *)
Definition record : json :=
  JDict
    [ ("packageId", JStr "BILLS-118hr796ih");
      ("lastModified", JStr "2023-03-01T10:29:21Z");
      ("packageLink", JStr "https://api.govinfo.gov/packages/BILLS-118hr796ih/summary");
      ("docClass", JStr "hr");
      ("title", JStr "Supply Chain Mapping and Monitoring Act");
      ("congress", JStr "118");
      ("dateIssued", JStr "2023-02-02") ].

Definition row : Row :=
  {| package_id := JStr "BILLS-118hr796ih";
     last_modified := {| year := 2023; month := 3; day := 1;
                         hour := 10; minute := 29; second := 21 |};
     package_link := JStr "https://api.govinfo.gov/packages/BILLS-118hr796ih/summary";
     doc_class := JStr "hr";
     title := JStr "Supply Chain Mapping and Monitoring Act";
     congress := 118;
     date_issued := JStr "2023-02-02" |}.

(** A second record, its [lastModified] a date without a time. *)
Definition record_without_time : json :=
  JDict
    [ ("packageId", JStr "BILLS-118hr797ih");
      ("lastModified", JStr "2023-03-01");
      ("packageLink", JStr "https://api.govinfo.gov/packages/BILLS-118hr797ih/summary");
      ("docClass", JStr "hr");
      ("title", JStr "A bill");
      ("congress", JStr "118");
      ("dateIssued", JStr "2023-02-02") ].

Definition response : json := JDict [("packages", JList [record])].

Definition empty_response : json := JDict [("packages", JList [])].

Definition response_without_packages : json :=
  JDict [("count", JInt 0); ("message", JStr "No results found")].

Definition response_with_bad_record : json :=
  JDict [("packages", JList [record; record_without_time])].

(** A remote side that answers every request with [payload]. *)
Definition serve (payload : json) (request : Request) : result json := Ok payload.

End Fixtures.

(** ** The in-memory adapter of [tests/fakes/__init__.py] *)

Module FakeAdapter.

(** A row of [self.data]: its [rowid], an int or [None], and its other
    columns. *)
Record FakeRow : Type := {
  rowid : option Z;
  cells : list (string * json)
}.

(** [self.data] as [__init__] sets it. *)
Definition initial_data : list FakeRow :=
  [ {| rowid := Some 0%Z;
       cells := [("name", JStr "Alice"); ("age", JInt 20); ("pets", JInt 0)] |};
    {| rowid := Some 1%Z;
       cells := [("name", JStr "Bob"); ("age", JInt 23); ("pets", JInt 3)] |} ].

(** The rowids of [data] when all are ints. With a [None] among them the
    expression [max(...) + 1] of [insert_data] raises [TypeError], in the
    comparison or, when the [None] stands alone, in the addition. *)
Fixpoint rowids (data : list FakeRow) : result (list Z) :=
  match data with
  | [] => Ok []
  | row :: rest =>
      match rowid row with
      | Some i => cons i <$> rowids rest
      | None => Raise TypeError
      end
  end.

(** [max(row["rowid"] for row in self.data) if self.data else 0] *)
Definition max_rowid (data : list FakeRow) : result Z :=
  match data with
  | [] => Ok 0%Z
  | _ =>
      ids ← rowids data;
      match ids with
      | [] => Ok 0%Z
      | i :: rest => Ok (fold_left Z.max rest i)
      end
  end.

(** [insert_data(row)]: the rowid returned and [self.data] afterwards. *)
Definition insert_data (data : list FakeRow) (row : FakeRow)
    : result (Z * list FakeRow) :=
  match rowid row with
  | Some row_id => Ok (row_id, data ++ [row])
  | None =>
      max_rowid ← max_rowid data;
      let row_id := (max_rowid + 1)%Z in
      Ok (row_id, data ++ [{| rowid := Some row_id; cells := cells row |}])
  end.

(** [delete_data(row_id)]: [self.data] afterwards. *)
Definition delete_data (data : list FakeRow) (row_id : Z) : list FakeRow :=
  List.filter (fun row => negb (bool_decide (rowid row = Some row_id))) data.

End FakeAdapter.

(** ** The adapter *)

Section Adapter.

(** [urllib.parse.urlparse], [urllib.parse.parse_qs], [urllib.parse.unquote] *)
Variable urlparse : string -> result ParseResult.
Variable parse_qs : string -> gmap string (list string).
Variable unquote : string -> string.
(** [datetime.strptime] and the builtin [int] *)
Variable strptime : json -> string -> result datetime.
Variable int : json -> result Z.
(** The remote side: the GET of a request followed by [response.json()]. *)
Variable fetch_json : Request -> result json.

Definition _supports_collections (split_path : list string)
    (query_string : gmap string (list string)) : result bool :=
  if (length split_path <? 4)%nat then Ok false
  else
    collection ← getitem split_path 2;
    start_date ← unquote <$> getitem split_path 3;
    let supported_collection := bool_decide (lower collection ∈ COLLECTIONS) in
    let valid_start_date := fullmatch DATE_PATTERN start_date in
    valid_end_date ←
      (if (length split_path =? 5)%nat then
         end_date ← unquote <$> getitem split_path 4;
         Ok (fullmatch DATE_PATTERN end_date)
       else Ok true);
    Ok (supported_collection
        && valid_start_date
        && valid_end_date
        && dict_contains "offset" query_string
        && dict_contains "pageSize" query_string).

Definition _supports_packages (split_path : list string)
    (query_string : gmap string (list string)) : result bool :=
  Raise NotImplementedError.

Definition _supports_published (split_path : list string)
    (query_string : gmap string (list string)) : result bool :=
  Raise NotImplementedError.

Definition _supports_related (split_path : list string)
    (query_string : gmap string (list string)) : result bool :=
  Raise NotImplementedError.

Definition supports (uri : string) (fast : bool) : result bool :=
  parsed ← urlparse uri;
  let query_string := parse_qs (query parsed) in
  let split_path := split "/" (path parsed) in
  endpoint ← getitem split_path 1;
  supports_endpoint ←
    (if String.eqb endpoint "collections" then
       _supports_collections split_path query_string
     else if String.eqb endpoint "packages" then
       _supports_packages split_path query_string
     else if String.eqb endpoint "published" then
       _supports_published split_path query_string
     else if String.eqb endpoint "related" then
       _supports_related split_path query_string
     else Raise ProgrammingError);
  Ok (String.eqb (netloc parsed) "api.govinfo.gov"
      && supports_endpoint
      && dict_contains "api_key" query_string).

Definition parse_uri (uri : string) : string := uri.

Definition _set_columns (endpoint : string) : option (list (string * Field)) :=
  if String.eqb endpoint "collections" then
    Some
      [ ("package_id", {| field_class := FString; filters := []; order := ANY |});
        ("last_modified",
          {| field_class := FISODateTime; filters := [FRange]; order := ANY |});
        ("package_link", {| field_class := FString; filters := []; order := ANY |});
        ("doc_class", {| field_class := FString; filters := []; order := ANY |});
        ("title", {| field_class := FString; filters := []; order := ANY |});
        ("congress", {| field_class := FInteger; filters := []; order := ANY |});
        ("date_issued",
          {| field_class := FString; filters := [FRange]; order := ANY |}) ]
  else None.

Definition __init__ (uri : string) : result GovInfoAPI :=
  parsed ← urlparse uri;
  let query_string := parse_qs (query parsed) in
  let url := scheme parsed +:+ "://" +:+ netloc parsed in
  api_key ← (values ← dict_getitem query_string "api_key"; getitem values 0);
  let split_path := split "/" (path parsed) in
  endpoint ← getitem split_path 1;
  attrs ←
    (if String.eqb endpoint "collections" then
       collection ← getitem split_path 2;
       start_date ← getitem split_path 3;
       end_date ←
         (if (length split_path =? 5)%nat
          then Some <$> getitem split_path 4
          else Ok None);
       offset ← (values ← dict_getitem query_string "offset"; getitem values 0);
       page_size ← (values ← dict_getitem query_string "pageSize"; getitem values 0);
       Ok (Some {| collection := collection; start_date := start_date;
                   end_date := end_date; offset := offset;
                   page_size := page_size |})
     else Ok None);
  Ok {| url := url; api_key := api_key; endpoint := endpoint;
        collections_attrs := attrs;
        _session := {| cache_name := "govinfo_cache"; backend := "sqlite";
                       kwargs := [("expore_after", 180%Z)] |};
        columns := _set_columns endpoint |}.

Definition get_columns (self : GovInfoAPI) : result (list (string * Field)) :=
  match columns self with
  | Some c => Ok c
  | None => Raise AttributeError
  end.

Definition _get_session (self : GovInfoAPI) : CachedSession := _session self.

(** The self attribute of the collections endpoint; [AttributeError] when
    the instance does not have it. *)
Definition attr {A : Type} (self : GovInfoAPI) (f : CollectionsAttrs -> A) : result A :=
  match collections_attrs self with
  | Some a => Ok (f a)
  | None => Raise AttributeError
  end.

(** [get_rows] up to the call of [requests.get]: the request it sends.
    The names [url] and [params] are bound only under the [if]. *)
Definition get_rows_request (self : GovInfoAPI)
    (bounds : gmap string Filter) (order : list (string * RequestedOrder))
    : result Request :=
  let base_url := url self +:+ "/" +:+ endpoint self in
  if String.eqb (endpoint self) "collections" then
    collection ← attr self collection;
    start_date ← attr self start_date;
    let url := base_url +:+ "/" +:+ collection +:+ "/" +:+ start_date +:+ "/" in
    end_date ← attr self end_date;
    let url :=
      url +:+ match end_date with
             | Some e => if String.eqb e "" then "" else e
             | None => ""
             end in
    offset ← attr self offset;
    page_size ← attr self page_size;
    let params :=
      [("offset", offset); ("pageSize", page_size); ("api_key", api_key self)] in
    Ok {| via := requests_get; req_url := url; req_params := params |}
  else Raise UnboundLocalError.

(** [get_rows] from its first line to the head of the [for] loop: the
    request, the GET, [response.json()], and the records of
    [payload["packages"]] that the loop is to visit. *)
Definition fetch_records (self : GovInfoAPI)
    (bounds : gmap string Filter) (order : list (string * RequestedOrder))
    : result (list json) :=
  request ← get_rows_request self bounds order;
  payload ← fetch_json request;
  packages ← subscript payload "packages";
  iterate packages.

(** The dict display under [yield], its items evaluated in order. *)
Definition row_of_record (record : json) : result Row :=
  package_id ← subscript record "packageId";
  last_modified ←
    (v ← subscript record "lastModified"; strptime v "%Y-%m-%dT%H:%M:%SZ");
  package_link ← subscript record "packageLink";
  doc_class ← subscript record "docClass";
  title ← subscript record "title";
  congress ← (v ← subscript record "congress"; int v);
  date_issued ← subscript record "dateIssued";
  Ok {| package_id := package_id; last_modified := last_modified;
        package_link := package_link; doc_class := doc_class;
        title := title; congress := congress; date_issued := date_issued |}.

(** The [for] loop of [get_rows], from the records still to visit up to
    the next [yield], the end of the loop or an exception. *)
Definition resume (records : list json) : signal * generator :=
  match records with
  | [] => (StopIteration, Finished)
  | record :: rest =>
      match row_of_record record with
      | Ok row => (Yield row, Suspended rest)
      | Raise e => (Raised e, Finished)
      end
  end.

(** [get_rows(self, bounds, order)]: calling a generator function runs
    none of its body. *)
Definition get_rows (self : GovInfoAPI)
    (bounds : gmap string Filter) (order : list (string * RequestedOrder))
    : generator :=
  Created self bounds order.

(** [next(g)]: the body of [get_rows] from where [g] stands. *)
Definition next (g : generator) : signal * generator :=
  match g with
  | Created self bounds order =>
      match fetch_records self bounds order with
      | Ok records => resume records
      | Raise e => (Raised e, Finished)
      end
  | Suspended rest => resume rest
  | Finished => (StopIteration, Finished)
  end.

(** The rows of the loop over [records] and how it ends: [None] for the
    end of the loop, [Some e] for the exception [e]. *)
Fixpoint rows_of (records : list json) : list Row * option exn :=
  match records with
  | [] => ([], None)
  | record :: rest =>
      match row_of_record record with
      | Ok row => let (rows, e) := rows_of rest in (row :: rows, e)
      | Raise e => ([], Some e)
      end
  end.

(** A caller that takes every row of [g], as [list(g)] does: the rows it
    received, and the exception that ended the iteration if one did. *)
Definition consume (g : generator) : list Row * option exn :=
  match g with
  | Created self bounds order =>
      match fetch_records self bounds order with
      | Ok records => rows_of records
      | Raise e => ([], Some e)
      end
  | Suspended rest => rows_of rest
  | Finished => ([], None)
  end.

(** [n] calls of [next]: the rows received so far, the last signal other
    than a row if there was one, and the generator left. *)
Fixpoint take (n : nat) (g : generator) : list Row * option signal * generator :=
  match n with
  | O => ([], None, g)
  | S n' =>
      match next g with
      | (Yield row, g') =>
          let '(rows, s, g'') := take n' g' in (row :: rows, s, g'')
      | (s, g') => ([], Some s, g')
      end
  end.

(** The signal that ends an iteration: [StopIteration] at the end of the
    loop, the exception otherwise. *)
Definition end_signal (e : option exn) : signal :=
  match e with
  | None => StopIteration
  | Some e => Raised e
  end.

(** *** The conditions of acceptance, for the statements below *)

(** The first element of the path after its leading [/], when [urlparse]
    accepts the URI and its path has one. *)
Definition first_segment (uri : string) : option string :=
  match urlparse uri with
  | Ok parsed => split "/" (path parsed) !! 1
  | Raise _ => None
  end.

(** Acceptance of a collections URI. [end_date_examined] says for which
    split paths the fifth element is held against the date pattern. *)
Definition accepted_if (end_date_examined : list string -> Prop)
    (parsed : ParseResult) : Prop :=
  let split_path := split "/" (path parsed) in
  let query_string := parse_qs (query parsed) in
  netloc parsed = "api.govinfo.gov"
  /\ 4 <= length split_path
  /\ (exists c, split_path !! 2 = Some c /\ lower c ∈ COLLECTIONS)
  /\ (exists d, split_path !! 3 = Some d
                /\ fullmatch DATE_PATTERN (unquote d) = true)
  /\ (end_date_examined split_path ->
      forall e, split_path !! 4 = Some e ->
                fullmatch DATE_PATTERN (unquote e) = true)
  /\ is_Some (query_string !! "offset")
  /\ is_Some (query_string !! "pageSize")
  /\ is_Some (query_string !! "api_key").

(** As the specification words it: any fifth element that is present. *)
Definition accepted_as_specified : ParseResult -> Prop :=
  accepted_if (fun _ => True).

(** As [_supports_collections] has it: under [len(split_path) == 5]. *)
Definition accepted : ParseResult -> Prop :=
  accepted_if (fun split_path => length split_path = 5).

(** A record whose [lastModified] is there and is refused by [strptime]
    with the exception [e]. *)
Definition bad_last_modified (record : json) (e : exn) : Prop :=
  exists v, subscript record "lastModified" = Ok v
            /\ strptime v "%Y-%m-%dT%H:%M:%SZ" = Raise e.

(** * Properties *)

(** ** Strings and the date pattern *)

Lemma split_nonempty (sep : ascii) (s : string) : split sep s <> [].
Proof.
  induction s as [|c rest IH]; simpl; [discriminate|].
  destruct (Ascii.eqb c sep); [discriminate|].
  destruct (split sep rest); discriminate.
Qed.

Lemma split_empty (sep : ascii) : split sep "" = [""].
Proof. reflexivity. Qed.

(** A separator between two strings separates their fields. *)
Lemma split_app (sep : ascii) (a b : string) :
  split sep (a +:+ String sep b) = split sep a ++ split sep b.
Proof.
  induction a as [|c rest IH]; simpl.
  - now rewrite Ascii.eqb_refl.
  - destruct (Ascii.eqb c sep); [now rewrite IH|].
    rewrite IH. pose proof (split_nonempty sep rest) as Hne.
    destruct (split sep rest); [congruence|reflexivity].
Qed.

Lemma split_no_sep (sep : ascii) (s : string) :
  occurs sep s = false -> split sep s = [s].
Proof.
  induction s as [|c rest IH]; simpl; [reflexivity|].
  intros H. apply orb_false_iff in H as [Hc Hrest].
  rewrite Ascii.eqb_sym, Hc. now rewrite (IH Hrest).
Qed.

Lemma match_counted_expand (a : atom) (n : nat) (atoms : list atom) (s : string) :
  match match_counted a n s with
  | Some rest => matches_atoms atoms rest
  | None => false
  end = matches_atoms (repeat a n ++ atoms) s.
Proof.
  revert s. induction n as [|n IH]; intros s; simpl; [reflexivity|].
  destruct s as [|c rest]; [reflexivity|].
  destruct (atom_matches a c); simpl; [apply IH|reflexivity].
Qed.

(** [fullmatch] matches the subject character by character. *)
Lemma fullmatch_expand (r : regex) (s : string) :
  fullmatch r s = matches_atoms (expand r) s.
Proof.
  revert s. induction r as [|[a n] r IH]; intros s; simpl.
  - destruct s; reflexivity.
  - rewrite <- match_counted_expand.
    destruct (match_counted a n s); [apply IH|reflexivity].
Qed.

Lemma matches_atoms_length (atoms : list atom) (s : string) :
  matches_atoms atoms s = true -> String.length s = length atoms.
Proof.
  revert s. induction atoms as [|a atoms IH]; intros [|c rest]; simpl;
    try discriminate; [reflexivity|].
  intros H. apply andb_true_iff in H as [_ H]. now rewrite (IH _ H).
Qed.

(** The date match is exact: a matching subject has the 20 characters of
    the pattern, no more. *)
Lemma fullmatch_DATE_PATTERN_length (s : string) :
  fullmatch DATE_PATTERN s = true -> String.length s = 20.
Proof. rewrite fullmatch_expand. apply matches_atoms_length. Qed.

Lemma lower_char_idem (c : ascii) : lower_char (lower_char c) = lower_char c.
Proof.
  destruct c as [[] [] [] [] [] [] [] []]; reflexivity.
Qed.

(** [lower] is a case fold: it does not tell a name from its lower case. *)
Lemma lower_idem (s : string) : lower (lower s) = lower s.
Proof.
  induction s as [|c rest IH]; simpl; [reflexivity|].
  now rewrite lower_char_idem, IH.
Qed.

(** ** Classification *)

(** Run the binds of the error monad, and nothing else. *)
Ltac run := cbn [mbind result_bind fmap result_fmap mret result_ret].
Ltac run_in H := cbn [mbind result_bind fmap result_fmap mret result_ret] in H.

Lemma getitem_Some {A : Type} (l : list A) (i : nat) (x : A) :
  l !! i = Some x -> getitem l i = Ok x.
Proof. unfold getitem. now intros ->. Qed.

Lemma getitem_None {A : Type} (l : list A) (i : nat) :
  l !! i = None -> getitem l i = Raise IndexError.
Proof. unfold getitem. now intros ->. Qed.

Lemma dict_contains_true {V : Type} (k : string) (d : gmap string V) :
  dict_contains k d = true <-> is_Some (d !! k).
Proof. unfold dict_contains. apply bool_decide_eq_true. Qed.

(** [_supports_collections] raises nothing, and says yes exactly under
    the conditions it tests. *)
Lemma _supports_collections_spec (split_path : list string)
    (query_string : gmap string (list string)) :
  exists b, _supports_collections split_path query_string = Ok b
    /\ (b = true <->
        4 <= length split_path
        /\ (exists c, split_path !! 2 = Some c /\ lower c ∈ COLLECTIONS)
        /\ (exists d, split_path !! 3 = Some d
                      /\ fullmatch DATE_PATTERN (unquote d) = true)
        /\ (length split_path = 5 ->
            forall e, split_path !! 4 = Some e ->
                      fullmatch DATE_PATTERN (unquote e) = true)
        /\ is_Some (query_string !! "offset")
        /\ is_Some (query_string !! "pageSize")).
Proof.
  unfold _supports_collections.
  destruct (Nat.ltb_spec (length split_path) 4) as [Hlt|Hge].
  { exists false. split; [reflexivity|]. split; [discriminate|]. lia. }
  destruct (lookup_lt_is_Some_2 split_path 2 ltac:(lia)) as [c Hc].
  destruct (lookup_lt_is_Some_2 split_path 3 ltac:(lia)) as [d Hd].
  rewrite (getitem_Some _ _ _ Hc), (getitem_Some _ _ _ Hd). run.
  destruct (Nat.eqb_spec (length split_path) 5) as [H5|H5].
  - destruct (lookup_lt_is_Some_2 split_path 4 ltac:(lia)) as [e He].
    rewrite (getitem_Some _ _ _ He). run.
    eexists. split; [reflexivity|].
    rewrite !andb_true_iff, bool_decide_eq_true, !dict_contains_true.
    split.
    + intros [[[[Hcoll Hstart] Hend] Hoff] Hps].
      repeat split; eauto. intros _ e' He'. congruence.
    + intros (_ & (c' & Hc' & Hcoll) & (d' & Hd' & Hstart) & Hend & Hoff & Hps).
      assert (c' = c) by congruence. assert (d' = d) by congruence. subst.
      repeat split; eauto.
  - eexists. split; [reflexivity|].
    rewrite !andb_true_iff, bool_decide_eq_true, !dict_contains_true.
    split.
    + intros [[[[Hcoll Hstart] _] Hoff] Hps].
      repeat split; eauto.
    + intros (_ & (c' & Hc' & Hcoll) & (d' & Hd' & Hstart) & _ & Hoff & Hps).
      assert (c' = c) by congruence. assert (d' = d) by congruence. subst.
      repeat split; eauto.
Qed.

(** On a collections URI [supports] returns a bool: [True] exactly when
    the URI is [accepted]. *)
Lemma supports_collections_spec (uri : string) (fast : bool) (parsed : ParseResult) :
  urlparse uri = Ok parsed ->
  split "/" (path parsed) !! 1 = Some "collections" ->
  exists b, supports uri fast = Ok b /\ (b = true <-> accepted parsed).
Proof.
  intros Hparse Hseg. unfold supports. rewrite Hparse. run.
  rewrite (getitem_Some _ _ _ Hseg). run.
  destruct (_supports_collections_spec (split "/" (path parsed))
              (parse_qs (query parsed))) as (b & -> & Hb).
  run. eexists. split; [reflexivity|].
  rewrite !andb_true_iff, Hb, String.eqb_eq, dict_contains_true.
  unfold accepted, accepted_if. tauto.
Qed.

(** The dispatch of [supports] on a first segment other than
    [collections]. *)
Lemma supports_other_segment (uri : string) (fast : bool) (parsed : ParseResult)
    (seg : string) :
  urlparse uri = Ok parsed ->
  split "/" (path parsed) !! 1 = Some seg ->
  seg <> "collections" ->
  supports uri fast =
    Raise (if bool_decide (seg ∈ ["packages"; "published"; "related"])
           then NotImplementedError else ProgrammingError).
Proof.
  intros Hparse Hseg Hne. unfold supports. rewrite Hparse. run.
  rewrite (getitem_Some _ _ _ Hseg). run.
  destruct (String.eqb_spec seg "collections") as [|_]; [contradiction|].
  destruct (String.eqb_spec seg "packages") as [->|Hp]; [reflexivity|].
  destruct (String.eqb_spec seg "published") as [->|Hq]; [reflexivity|].
  destruct (String.eqb_spec seg "related") as [->|Hr]; [reflexivity|].
  rewrite bool_decide_eq_false_2; [reflexivity|].
  rewrite !elem_of_cons, elem_of_nil. tauto.
Qed.

(** C1, as amended. For a URI that [urlparse] accepts, [supports] returns
    [True] if and only if the first path segment is exactly [collections]
    and: the authority is [api.govinfo.gov]; the split path has at least 4
    elements; the collection, lower-cased, is in [COLLECTIONS]; the decoded
    start date fully matches [DATE_PATTERN]; when the split path has
    exactly 5 elements, the decoded fifth element fully matches too; and
    the query has the keys [offset], [pageSize] and [api_key]. On a
    collections URI it returns [False] in every other case. *)
Theorem supports_true_iff_accepted (uri : string) (fast : bool)
    (parsed : ParseResult) :
  urlparse uri = Ok parsed ->
  (supports uri fast = Ok true <->
     split "/" (path parsed) !! 1 = Some "collections" /\ accepted parsed)
  /\ (split "/" (path parsed) !! 1 = Some "collections" ->
      (supports uri fast = Ok false <-> ~ accepted parsed)).
Proof.
  intros Hparse. split.
  - split.
    + intros Htrue.
      destruct (split "/" (path parsed) !! 1) as [seg|] eqn:Hseg.
      * destruct (String.eqb_spec seg "collections") as [->|Hne].
        -- destruct (supports_collections_spec uri fast parsed Hparse Hseg)
             as (b & Hb & Hiff).
           split; [reflexivity|]. apply Hiff. congruence.
        -- rewrite (supports_other_segment uri fast parsed seg Hparse Hseg Hne)
             in Htrue.
           discriminate.
      * unfold supports in Htrue. rewrite Hparse in Htrue. run_in Htrue.
        rewrite (getitem_None _ _ Hseg) in Htrue. discriminate.
    + intros [Hseg Hacc].
      destruct (supports_collections_spec uri fast parsed Hparse Hseg)
        as (b & Hb & Hiff).
      apply Hiff in Hacc. congruence.
  - intros Hseg.
    destruct (supports_collections_spec uri fast parsed Hparse Hseg)
      as (b & Hb & Hiff).
    rewrite Hb. split.
    + intros Hfalse Hacc. apply Hiff in Hacc. congruence.
    + intros Hnot. destruct b; [|reflexivity]. exfalso. apply Hnot, Hiff.
      reflexivity.
Qed.

(** C4, as amended. On a collections URI whose split path has exactly
    five elements, [supports] returns [True] only if the fifth element,
    URL-decoded, fully matches [DATE_PATTERN]. On one whose split path has
    exactly four elements the end date is absent, and its absence changes
    nothing: the URI with a well-formed end date appended to its path is
    classified the same. *)
Theorem supports_end_date_optional (uri : string) (fast : bool)
    (parsed : ParseResult) :
  urlparse uri = Ok parsed ->
  split "/" (path parsed) !! 1 = Some "collections" ->
  (length (split "/" (path parsed)) = 5 ->
   forall e, split "/" (path parsed) !! 4 = Some e ->
     supports uri fast = Ok true ->
     fullmatch DATE_PATTERN (unquote e) = true)
  /\ (length (split "/" (path parsed)) = 4 ->
      forall (uri' : string) (parsed' : ParseResult) (e : string),
        urlparse uri' = Ok parsed' ->
        netloc parsed' = netloc parsed ->
        query parsed' = query parsed ->
        path parsed' = path parsed +:+ "/" +:+ e ->
        occurs "/" e = false ->
        fullmatch DATE_PATTERN (unquote e) = true ->
        supports uri' fast = supports uri fast).
Proof.
  intros Hparse Hseg. split.
  - intros H5 e He Htrue.
    destruct (supports_collections_spec uri fast parsed Hparse Hseg)
      as (b & Hb & Hiff).
    assert (Hacc : accepted parsed) by (apply Hiff; congruence).
    destruct Hacc as (_ & _ & _ & _ & Hend & _). now apply Hend.
  - intros H4 uri' parsed' e Hparse' Hnet Hq Hpath Hns Hdate.
    assert (Hsplit : split "/" (path parsed') = split "/" (path parsed) ++ [e]).
    { rewrite Hpath. change ("/" +:+ e) with (String "/" e).
      rewrite split_app. now rewrite (split_no_sep _ _ Hns). }
    assert (Hseg' : split "/" (path parsed') !! 1 = Some "collections").
    { rewrite Hsplit. rewrite lookup_app_l; [exact Hseg|lia]. }
    destruct (supports_collections_spec uri fast parsed Hparse Hseg)
      as (b & Hb & Hiff).
    destruct (supports_collections_spec uri' fast parsed' Hparse' Hseg')
      as (b' & Hb' & Hiff').
    rewrite Hb, Hb'. f_equal. apply eq_true_iff_eq. rewrite Hiff, Hiff'.
    unfold accepted, accepted_if. rewrite Hsplit, Hnet, Hq, length_app.
    simpl length.
    assert (Hlk : forall i, i < 4 ->
              (split "/" (path parsed) ++ [e]) !! i = split "/" (path parsed) !! i).
    { intros i Hi. apply lookup_app_l. lia. }
    rewrite (Hlk 2), (Hlk 3) by lia.
    assert (H4e : (split "/" (path parsed) ++ [e]) !! 4 = Some e).
    { rewrite lookup_app_r by lia. now rewrite H4. }
    rewrite H4e. split.
    + intros (Hn & _ & Hc & Hd & _ & Hks).
      split; [exact Hn|]. split; [lia|]. split; [exact Hc|].
      split; [exact Hd|]. split; [|exact Hks].
      intros Hlen. lia.
    + intros (Hn & _ & Hc & Hd & _ & Hks).
      split; [exact Hn|]. split; [lia|]. split; [exact Hc|].
      split; [exact Hd|]. split; [|exact Hks].
      intros _ e' [= <-]. exact Hdate.
Qed.

(** C5. [supports] raises an exception if and only if the first path
    segment is not [collections]: [ProgrammingError] when it is none of
    the four endpoint names, [NotImplementedError] when it is [packages],
    [published] or [related]. On a collections URI it raises nothing, and
    returns plain [False] for a wrong collection, a malformed date or a
    missing query parameter. *)
Theorem supports_raises_iff (uri : string) (fast : bool) :
  (raises (supports uri fast) <-> first_segment uri <> Some "collections")
  /\ (forall seg, first_segment uri = Some seg ->
        seg ∉ ["collections"; "packages"; "published"; "related"] ->
        supports uri fast = Raise ProgrammingError)
  /\ (forall seg, first_segment uri = Some seg ->
        seg ∈ ["packages"; "published"; "related"] ->
        supports uri fast = Raise NotImplementedError)
  /\ (forall parsed, urlparse uri = Ok parsed ->
        split "/" (path parsed) !! 1 = Some "collections" ->
        let split_path := split "/" (path parsed) in
        let query_string := parse_qs (query parsed) in
        (forall c, split_path !! 2 = Some c -> lower c ∉ COLLECTIONS)
        \/ (forall d, split_path !! 3 = Some d ->
                      fullmatch DATE_PATTERN (unquote d) = false)
        \/ (length split_path = 5
            /\ exists e, split_path !! 4 = Some e
                         /\ fullmatch DATE_PATTERN (unquote e) = false)
        \/ query_string !! "offset" = None
        \/ query_string !! "pageSize" = None
        \/ query_string !! "api_key" = None ->
        supports uri fast = Ok false).
Proof.
  unfold first_segment. cbv zeta.
  destruct (urlparse uri) as [parsed|e0] eqn:Hparse.
  2:{ assert (Hs : supports uri fast = Raise e0)
        by (unfold supports; rewrite Hparse; reflexivity).
      repeat split; try discriminate.
      exists e0. exact Hs. }
  destruct (split "/" (path parsed) !! 1) as [seg|] eqn:Hseg.
  2:{ assert (Hs : supports uri fast = Raise IndexError).
      { unfold supports. rewrite Hparse. run.
        now rewrite (getitem_None _ _ Hseg). }
      repeat split; try discriminate.
      - exists IndexError. exact Hs.
      - intros parsed' [= <-]. rewrite Hseg. discriminate. }
  destruct (String.eqb_spec seg "collections") as [->|Hne].
  - destruct (supports_collections_spec uri fast parsed Hparse Hseg)
      as (b & Hb & Hiff).
    split; [|split; [|split]].
    + split; [|congruence]. intros [e He]. congruence.
    + intros seg [= <-] Hnot. exfalso. apply Hnot. apply elem_of_cons. now left.
    + intros seg [= <-] Hin. exfalso.
      rewrite !elem_of_cons, elem_of_nil in Hin.
      destruct Hin as [H|[H|[H|[]]]]; discriminate.
    + intros parsed' [= <-] _ Hcause.
      rewrite Hb. destruct b; [|reflexivity]. exfalso.
      destruct (proj1 Hiff eq_refl)
        as (_ & _ & (c & Hc & Hcoll) & (d & Hd & Hstart) & Hend & Hoff & Hps & Hkey).
      destruct Hcause as [H|[H|[(H5 & e & He & Hbad)|[H|[H|H]]]]].
      * exact (H c Hc Hcoll).
      * rewrite (H d Hd) in Hstart. discriminate.
      * rewrite (Hend H5 e He) in Hbad. discriminate.
      * rewrite H in Hoff. now destruct Hoff.
      * rewrite H in Hps. now destruct Hps.
      * rewrite H in Hkey. now destruct Hkey.
  - pose proof (supports_other_segment uri fast parsed seg Hparse Hseg Hne) as Hs.
    split; [|split; [|split]].
    + split; [congruence|]. intros _. eexists. exact Hs.
    + intros seg' [= <-] Hnot. rewrite Hs.
      rewrite bool_decide_eq_false_2; [reflexivity|].
      intros Hin. apply Hnot. apply elem_of_cons. now right.
    + intros seg' [= <-] Hin. rewrite Hs.
      now rewrite bool_decide_eq_true_2.
    + intros parsed' [= <-] Hc. congruence.
Qed.

(** C7, as amended. On a collections URI whose query lacks at least one
    of the keys [api_key], [offset] and [pageSize], [supports] returns
    [False]. *)
Theorem supports_missing_key (uri : string) (fast : bool) (parsed : ParseResult) :
  urlparse uri = Ok parsed ->
  split "/" (path parsed) !! 1 = Some "collections" ->
  parse_qs (query parsed) !! "api_key" = None
  \/ parse_qs (query parsed) !! "offset" = None
  \/ parse_qs (query parsed) !! "pageSize" = None ->
  supports uri fast = Ok false.
Proof.
  intros Hparse Hseg Hmiss.
  destruct (supports_collections_spec uri fast parsed Hparse Hseg)
    as (b & Hb & Hiff).
  rewrite Hb. destruct b; [|reflexivity]. exfalso.
  destruct (proj1 Hiff eq_refl) as (_ & _ & _ & _ & _ & Hoff & Hps & Hkey).
  destruct Hmiss as [H|[H|H]].
  - rewrite H in Hkey. now destruct Hkey.
  - rewrite H in Hoff. now destruct Hoff.
  - rewrite H in Hps. now destruct Hps.
Qed.

(** C10. On a URI whose path is empty, [supports] raises [IndexError]
    at [split_path[1]]: it neither returns [False] nor raises
    [ProgrammingError]. *)
Theorem supports_empty_path (uri : string) (fast : bool) (parsed : ParseResult) :
  urlparse uri = Ok parsed ->
  path parsed = "" ->
  supports uri fast = Raise IndexError.
Proof.
  intros Hparse Hpath. unfold supports. rewrite Hparse. run.
  rewrite Hpath, split_empty. reflexivity.
Qed.

(** ** Rows *)

(** What [row_of_record] returns, item by item. *)
Lemma row_of_record_Ok (record : json) (row : Row) :
  row_of_record record = Ok row <->
  subscript record "packageId" = Ok (package_id row)
  /\ (exists v, subscript record "lastModified" = Ok v
                /\ strptime v "%Y-%m-%dT%H:%M:%SZ" = Ok (last_modified row))
  /\ subscript record "packageLink" = Ok (package_link row)
  /\ subscript record "docClass" = Ok (doc_class row)
  /\ subscript record "title" = Ok (title row)
  /\ (exists v, subscript record "congress" = Ok v
                /\ int v = Ok (congress row))
  /\ subscript record "dateIssued" = Ok (date_issued row).
Proof.
  unfold row_of_record. split.
  - destruct (subscript record "packageId") as [pid|]; [run|discriminate].
    destruct (subscript record "lastModified") as [lm|]; [run|discriminate].
    destruct (strptime lm _) as [dt|] eqn:Hdt; [run|discriminate].
    destruct (subscript record "packageLink") as [pl|]; [run|discriminate].
    destruct (subscript record "docClass") as [dc|]; [run|discriminate].
    destruct (subscript record "title") as [t|]; [run|discriminate].
    destruct (subscript record "congress") as [c|]; [run|discriminate].
    destruct (int c) as [n|] eqn:Hn; [run|discriminate].
    destruct (subscript record "dateIssued") as [di|]; [run|discriminate].
    intros [= <-]. simpl. repeat split; eauto.
  - intros (-> & (lm & -> & Hlm) & -> & -> & -> & (c & -> & Hc) & ->).
    run. rewrite Hlm. run. rewrite Hc. run. now destruct row.
Qed.

(** A record whose [lastModified] is refused yields no row; the
    exception is that of [strptime] when the [packageId] before it is
    there. *)
Lemma row_of_record_bad (record : json) (e : exn) :
  bad_last_modified record e ->
  exists err, row_of_record record = Raise err
    /\ ((exists pid, subscript record "packageId" = Ok pid) -> err = e).
Proof.
  intros (v & Hv & He). unfold row_of_record.
  destruct (subscript record "packageId") as [pid|e1].
  - run. rewrite Hv. run. rewrite He. run. eauto.
  - run. exists e1. split; [reflexivity|]. intros [pid [=]].
Qed.

(** The loop stops at the first record that yields no row: the rows
    received are those of the records before it. *)
Lemma rows_of_stops (pre : list json) (bad : json) (post : list json) (e : exn) :
  row_of_record bad = Raise e ->
  exists rows err,
    rows_of (pre ++ bad :: post) = (rows, Some err)
    /\ length rows <= length pre
    /\ rows_of (firstn (length rows) pre) = (rows, None)
    /\ ((forall r, r ∈ pre -> exists row, row_of_record r = Ok row) ->
        length rows = length pre /\ err = e).
Proof.
  intros Hbad. induction pre as [|r pre IH]; simpl.
  - rewrite Hbad. exists [], e. repeat split; auto.
  - destruct (row_of_record r) as [row|er] eqn:Hr.
    + destruct IH as (rows & err & -> & Hlen & Hfirst & Hall).
      exists (row :: rows), err. simpl. rewrite Hr, Hfirst.
      split; [reflexivity|]. split; [lia|]. split; [reflexivity|].
      intros Hok. destruct Hall as [Hl He].
      { intros r' Hr'. apply Hok. apply elem_of_cons. now right. }
      split; [now rewrite Hl|exact He].
    + exists [], er. simpl.
      split; [reflexivity|]. split; [lia|]. split; [reflexivity|].
      intros Hok. destruct (Hok r) as [row Hrow]; [apply elem_of_cons; now left|].
      congruence.
Qed.

(** Every row comes from the record at its place in the response. *)
Lemma rows_of_lookup (records : list json) (i : nat) (row : Row) :
  fst (rows_of records) !! i = Some row ->
  exists record, records !! i = Some record /\ row_of_record record = Ok row.
Proof.
  revert i. induction records as [|r records IH]; intros i; simpl.
  - now rewrite lookup_nil.
  - destruct (row_of_record r) as [row0|e0] eqn:Hr.
    + destruct (rows_of records) as [rows e]. simpl in *.
      destruct i as [|i]; simpl.
      * intros [= <-]. eauto.
      * apply IH.
    + simpl. now rewrite lookup_nil.
Qed.

Lemma rows_of_all (records : list json) :
  (forall r, r ∈ records -> exists row, row_of_record r = Ok row) ->
  snd (rows_of records) = None
  /\ length (fst (rows_of records)) = length records.
Proof.
  induction records as [|r records IH]; intros Hall; simpl; [auto|].
  destruct (Hall r) as [row Hrow]; [apply elem_of_cons; now left|].
  rewrite Hrow. destruct IH as [He Hlen].
  { intros r' Hr'. apply Hall. apply elem_of_cons. now right. }
  destruct (rows_of records) as [rows e]. simpl in *. auto.
Qed.

(** Calling [next] until the iteration ends delivers what [consume]
    says: the rows one by one, then the signal that ends the iteration. *)
Lemma take_rows_of (records : list json) :
  take (S (length (fst (rows_of records)))) (Suspended records) =
    (fst (rows_of records), Some (end_signal (snd (rows_of records))), Finished).
Proof.
  induction records as [|r records IH]; [reflexivity|].
  cbn [rows_of]. cbn [take next resume].
  destruct (row_of_record r) as [row|e] eqn:Hr; [|reflexivity].
  destruct (rows_of records) as [rows e] eqn:Hrows.
  cbn [fst snd length] in *. now rewrite IH.
Qed.

Lemma take_get_rows (self : GovInfoAPI) (bounds : gmap string Filter)
    (order : list (string * RequestedOrder)) (records : list json) :
  fetch_records self bounds order = Ok records ->
  consume (get_rows self bounds order) = rows_of records
  /\ take (S (length (fst (rows_of records)))) (get_rows self bounds order) =
       (fst (rows_of records), Some (end_signal (snd (rows_of records))), Finished).
Proof.
  intros Hfetch. unfold get_rows. cbn [consume]. rewrite Hfetch.
  split; [reflexivity|].
  rewrite <- take_rows_of. cbn [take next]. now rewrite Hfetch.
Qed.

(** C2, as amended. When the response holds a record whose
    [lastModified] is refused by [strptime], the iteration over
    [get_rows] ends with an exception, after it has yielded the rows of
    records that precede that record, in order, and none for that record
    or a later one. When every preceding record yields a row and the
    record has its [packageId], all the preceding rows are yielded and the
    exception is the one [strptime] raised. *)
Theorem get_rows_bad_last_modified (self : GovInfoAPI)
    (bounds : gmap string Filter) (order : list (string * RequestedOrder))
    (pre : list json) (bad : json) (post : list json) (e : exn) :
  fetch_records self bounds order = Ok (pre ++ bad :: post) ->
  bad_last_modified bad e ->
  exists rows err,
    consume (get_rows self bounds order) = (rows, Some err)
    /\ take (S (length rows)) (get_rows self bounds order) =
         (rows, Some (Raised err), Finished)
    /\ length rows <= length pre
    /\ rows_of (firstn (length rows) pre) = (rows, None)
    /\ ((forall r, r ∈ pre -> exists row, row_of_record r = Ok row) ->
        (exists pid, subscript bad "packageId" = Ok pid) ->
        length rows = length pre /\ err = e).
Proof.
  intros Hfetch Hbad.
  destruct (row_of_record_bad bad e Hbad) as (e' & He' & Hsame).
  destruct (rows_of_stops pre bad post e' He') as (rows & err & Hrows & Hlen & Hfirst & Hall).
  destruct (take_get_rows self bounds order _ Hfetch) as [Hconsume Htake].
  rewrite Hrows in Hconsume, Htake. cbn [fst snd end_signal] in Htake.
  exists rows, err.
  split; [exact Hconsume|]. split; [exact Htake|]. split; [exact Hlen|].
  split; [exact Hfirst|].
  intros Hok Hpid. destruct (Hall Hok) as [Hl ->]. split; [exact Hl|].
  now apply Hsame.
Qed.

(** C3, as amended. When [packages] is an empty array, [get_rows] yields
    no row and raises nothing: the first [next] gives [StopIteration].
    When the response is an object without the key [packages],
    [get_rows] yields no row and the first [next] raises [KeyError]. *)
Theorem get_rows_no_packages (self : GovInfoAPI)
    (bounds : gmap string Filter) (order : list (string * RequestedOrder))
    (request : Request) (payload : json) :
  get_rows_request self bounds order = Ok request ->
  fetch_json request = Ok payload ->
  (subscript payload "packages" = Ok (JList []) ->
   consume (get_rows self bounds order) = ([], None)
   /\ next (get_rows self bounds order) = (StopIteration, Finished))
  /\ (forall items, payload = JDict items -> assoc "packages" items = None ->
      consume (get_rows self bounds order) = ([], Some KeyError)
      /\ next (get_rows self bounds order) = (Raised KeyError, Finished)).
Proof.
  intros Hreq Hfetch. unfold get_rows. cbn [consume next]. unfold fetch_records.
  rewrite Hreq. run. rewrite Hfetch. run. split.
  - intros ->. run. split; reflexivity.
  - intros items -> Hnone. unfold subscript. rewrite Hnone. run.
    split; reflexivity.
Qed.

(** C6. [get_rows] builds the same request whatever [bounds] and [order]
    are, its query parameters being the [offset], [page_size] and
    [api_key] of the instance, and against the same remote side its first
    step and all its rows are the same. *)
Theorem get_rows_ignores_bounds_and_order (self : GovInfoAPI)
    (bounds1 bounds2 : gmap string Filter)
    (order1 order2 : list (string * RequestedOrder)) :
  get_rows_request self bounds1 order1 = get_rows_request self bounds2 order2
  /\ (forall request, get_rows_request self bounds1 order1 = Ok request ->
        exists a, collections_attrs self = Some a
          /\ req_params request =
               [("offset", offset a); ("pageSize", page_size a);
                ("api_key", api_key self)])
  /\ next (get_rows self bounds1 order1) = next (get_rows self bounds2 order2)
  /\ consume (get_rows self bounds1 order1) = consume (get_rows self bounds2 order2).
Proof.
  split; [reflexivity|]. split; [|split; reflexivity].
  intros request. unfold get_rows_request, attr.
  destruct (String.eqb (endpoint self) "collections"); [|discriminate].
  destruct (collections_attrs self) as [a|]; [|discriminate].
  run. intros [= <-]. exists a. split; reflexivity.
Qed.

(** C8. [row_of_record] gives a row exactly when every item of the dict
    can be computed, and then [congress] is [int] of the record's
    [congress], [last_modified] is [strptime] of its [lastModified] under
    the format [%Y-%m-%dT%H:%M:%SZ], and [date_issued], [package_id],
    [package_link], [doc_class] and [title] are the record's [dateIssued],
    [packageId], [packageLink], [docClass] and [title] as they are. Every
    row that [get_rows] yields is the row of the record at its place, and
    when every record has a row, every row is yielded. *)
Theorem get_rows_row_fields :
  (forall record row,
     row_of_record record = Ok row <->
     subscript record "packageId" = Ok (package_id row)
     /\ (exists v, subscript record "lastModified" = Ok v
                   /\ strptime v "%Y-%m-%dT%H:%M:%SZ" = Ok (last_modified row))
     /\ subscript record "packageLink" = Ok (package_link row)
     /\ subscript record "docClass" = Ok (doc_class row)
     /\ subscript record "title" = Ok (title row)
     /\ (exists v, subscript record "congress" = Ok v
                   /\ int v = Ok (congress row))
     /\ subscript record "dateIssued" = Ok (date_issued row))
  /\ (forall self bounds order records,
        fetch_records self bounds order = Ok records ->
        (forall i row,
           fst (consume (get_rows self bounds order)) !! i = Some row ->
           exists record, records !! i = Some record
                          /\ row_of_record record = Ok row)
        /\ ((forall r, r ∈ records -> exists row, row_of_record r = Ok row) ->
            snd (consume (get_rows self bounds order)) = None
            /\ length (fst (consume (get_rows self bounds order)))
               = length records)).
Proof.
  split; [apply row_of_record_Ok|].
  intros self bounds order records Hfetch.
  destruct (take_get_rows self bounds order records Hfetch) as [-> _].
  split; [apply rows_of_lookup|apply rows_of_all].
Qed.

(** C9 does not hold of the code. The instance that [__init__] builds
    holds a cached session, and the request of [get_rows] does not go
    through it: the GET is the one of [requests.get]. *)
Theorem get_rows_bypasses_session (uri : string) (self : GovInfoAPI)
    (bounds : gmap string Filter) (order : list (string * RequestedOrder))
    (request : Request) :
  __init__ uri = Ok self ->
  get_rows_request self bounds order = Ok request ->
  _get_session self =
    {| cache_name := "govinfo_cache"; backend := "sqlite";
       kwargs := [("expore_after", 180%Z)] |}
  /\ via request = requests_get
  /\ via request <> session_get (_get_session self).
Proof.
  intros Hinit Hreq. split.
  - unfold __init__ in Hinit.
    destruct (urlparse uri) as [parsed|]; [run_in Hinit|discriminate].
    destruct (dict_getitem _ "api_key") as [vs|]; [run_in Hinit|discriminate].
    destruct (getitem vs 0) as [k|]; [run_in Hinit|discriminate].
    destruct (getitem _ 1) as [ep|]; [run_in Hinit|discriminate].
    match type of Hinit with
    | context [if ?c then ?a else ?b] => destruct (if c then a else b)
    end; [run_in Hinit|discriminate].
    now injection Hinit as <-.
  - assert (Hvia : via request = requests_get).
    { unfold get_rows_request, attr in Hreq.
      destruct (String.eqb (endpoint self) "collections"); [|discriminate].
      destruct (collections_attrs self) as [a|]; [|discriminate].
      run_in Hreq. now injection Hreq as <-. }
    split; [exact Hvia|]. rewrite Hvia. discriminate.
Qed.


(** ** Further properties of the classification *)

Lemma append_assoc (a b c : string) : (a +:+ b) +:+ c = a +:+ (b +:+ c).
Proof.
  induction a as [|x a IH]; [reflexivity|].
  change (String x ((a +:+ b) +:+ c) = String x (a +:+ (b +:+ c))).
  now rewrite IH.
Qed.

Lemma append_cons (x : ascii) (a b : string) :
  String x a +:+ b = String x (a +:+ b).
Proof. reflexivity. Qed.

Lemma append_nil_l (a : string) : "" +:+ a = a.
Proof. reflexivity. Qed.

Lemma append_nil_r (a : string) : a +:+ "" = a.
Proof.
  induction a as [|x a IH]; [reflexivity|]. now rewrite append_cons, IH.
Qed.

(** Joining what [split] gave restores the string. *)
Lemma join_split (sep : ascii) (s : string) : join sep (split sep s) = s.
Proof.
  induction s as [|c rest IH]; [reflexivity|]. cbn [split].
  pose proof (split_nonempty sep rest) as Hne.
  destruct (split sep rest) as [|hd tl]; [congruence|].
  destruct (Ascii.eqb_spec c sep) as [->|Hc].
  - change (join sep ("" :: hd :: tl)) with (String sep (join sep (hd :: tl))).
    now rewrite IH.
  - destruct tl as [|hd' tl].
    + cbn [join] in *. now rewrite IH.
    + change (join sep (String c hd :: hd' :: tl))
        with (String c (join sep (hd :: hd' :: tl))).
      now rewrite IH.
Qed.

Lemma lower_char_bills (c : ascii) :
  (lower_char c = "b"%char <-> c = "b"%char \/ c = "B"%char)
  /\ (lower_char c = "i"%char <-> c = "i"%char \/ c = "I"%char)
  /\ (lower_char c = "l"%char <-> c = "l"%char \/ c = "L"%char)
  /\ (lower_char c = "s"%char <-> c = "s"%char \/ c = "S"%char).
Proof.
  destruct c as [[] [] [] [] [] [] [] []]; vm_compute;
    (repeat split; intros H; try discriminate H; auto;
     destruct H as [H|H]; discriminate H).
Qed.

(** X1. The collection names that [_supports_collections] takes are the 32
    spellings of [bills] in upper and lower case, and no other string. *)
Theorem supported_collection_spellings (collection : string) :
  lower collection ∈ COLLECTIONS <->
  exists b i l1 l2 s : ascii,
    collection = String b (String i (String l1 (String l2 (String s ""))))
    /\ (b = "b" \/ b = "B")%char
    /\ (i = "i" \/ i = "I")%char
    /\ (l1 = "l" \/ l1 = "L")%char
    /\ (l2 = "l" \/ l2 = "L")%char
    /\ (s = "s" \/ s = "S")%char.
Proof.
  unfold COLLECTIONS. rewrite list_elem_of_singleton. split.
  - destruct collection as [|b [|i [|l1 [|l2 [|s [|x rest]]]]]];
      simpl; try discriminate.
    intros [= Hb Hi Hl1 Hl2 Hs]. exists b, i, l1, l2, s.
    split; [reflexivity|].
    repeat split.
    + now apply (proj1 (lower_char_bills b)).
    + now apply (proj1 (proj2 (lower_char_bills i))).
    + now apply (proj1 (proj2 (proj2 (lower_char_bills l1)))).
    + now apply (proj1 (proj2 (proj2 (lower_char_bills l2)))).
    + now apply (proj2 (proj2 (proj2 (lower_char_bills s)))).
  - intros (b & i & l1 & l2 & s & -> & Hb & Hi & Hl1 & Hl2 & Hs). simpl.
    apply (proj1 (lower_char_bills b)) in Hb.
    apply (proj1 (proj2 (lower_char_bills i))) in Hi.
    apply (proj1 (proj2 (proj2 (lower_char_bills l1)))) in Hl1.
    apply (proj1 (proj2 (proj2 (lower_char_bills l2)))) in Hl2.
    apply (proj2 (proj2 (proj2 (lower_char_bills s)))) in Hs.
    now rewrite Hb, Hi, Hl1, Hl2, Hs.
Qed.

(** X2. [DATE_PATTERN] fully matches exactly the strings of 20 characters
    [dddd-dd-ddTdd:dd:ddZ] with a decimal digit for each [d]: nothing is
    allowed before, between or after, and the numbers are not checked
    against the calendar or the clock. *)
Theorem DATE_PATTERN_shape (s : string) :
  fullmatch DATE_PATTERN s = true <->
  exists y1 y2 y3 y4 m1 m2 d1 d2 h1 h2 n1 n2 s1 s2 : ascii,
    s = String y1 (String y2 (String y3 (String y4 (String "-"
         (String m1 (String m2 (String "-"
         (String d1 (String d2 (String "T"
         (String h1 (String h2 (String ":"
         (String n1 (String n2 (String ":"
         (String s1 (String s2 (String "Z" "")))))))))))))))))))
    /\ forallb is_digit [y1; y2; y3; y4; m1; m2; d1; d2; h1; h2; n1; n2; s1; s2]
       = true.
Proof.
  rewrite fullmatch_expand.
  change (expand DATE_PATTERN)
    with [Digit; Digit; Digit; Digit; Lit "-"; Digit; Digit; Lit "-";
          Digit; Digit; Lit "T"; Digit; Digit; Lit ":"; Digit; Digit;
          Lit ":"; Digit; Digit; Lit "Z"].
  split.
  - intros H.
    repeat (destruct s as [|? s]; [discriminate H|];
            cbn [matches_atoms atom_matches] in H;
            apply andb_true_iff in H as [? H]).
    destruct s; [|discriminate H].
    repeat match goal with
           | E : Ascii.eqb _ _ = true |- _ => apply Ascii.eqb_eq in E; subst
           end.
    do 14 eexists. split; [reflexivity|].
    cbn [forallb]. rewrite !andb_true_iff. repeat split; assumption.
  - intros (y1 & y2 & y3 & y4 & m1 & m2 & d1 & d2 & h1 & h2 & n1 & n2 & s1 & s2
            & -> & Hd).
    cbn [forallb] in Hd. rewrite !andb_true_iff in Hd.
    destruct Hd as (? & ? & ? & ? & ? & ? & ? & ? & ? & ? & ? & ? & ? & ? & _).
    cbn [matches_atoms atom_matches].
    repeat match goal with
           | E : is_digit _ = true |- _ => rewrite E; clear E
           end.
    reflexivity.
Qed.

Lemma dict_contains_ext {V : Type} (k : string) (d1 d2 : gmap string V) :
  (is_Some (d1 !! k) <-> is_Some (d2 !! k)) ->
  dict_contains k d1 = dict_contains k d2.
Proof. intros H. unfold dict_contains. now apply bool_decide_ext. Qed.

(** X3. [supports] looks at the authority, at the path and at which of the
    keys [offset], [pageSize] and [api_key] the query has, and at nothing
    else: the scheme, the values of the query, its other keys and [fast]
    do not change the answer. *)
Theorem supports_reads_only (uri1 uri2 : string) (fast1 fast2 : bool)
    (parsed1 parsed2 : ParseResult) :
  urlparse uri1 = Ok parsed1 ->
  urlparse uri2 = Ok parsed2 ->
  netloc parsed1 = netloc parsed2 ->
  path parsed1 = path parsed2 ->
  (forall k, k ∈ ["offset"; "pageSize"; "api_key"] ->
     (is_Some (parse_qs (query parsed1) !! k)
      <-> is_Some (parse_qs (query parsed2) !! k))) ->
  supports uri1 fast1 = supports uri2 fast2.
Proof.
  intros H1 H2 Hnet Hpath Hkeys. unfold supports, _supports_collections.
  rewrite H1, H2. run. rewrite Hnet, Hpath.
  rewrite (dict_contains_ext "offset" _ (parse_qs (query parsed2))),
          (dict_contains_ext "pageSize" _ (parse_qs (query parsed2))),
          (dict_contains_ext "api_key" _ (parse_qs (query parsed2)));
    [reflexivity|apply Hkeys..];
    rewrite !elem_of_cons; auto.
Qed.

(** X4. On a URI of another host, [supports] still dispatches on the first
    path segment before it looks at the host: it returns [False] when the
    segment is [collections] and raises for every other URI. *)
Theorem supports_foreign_host (uri : string) (fast : bool) (parsed : ParseResult) :
  urlparse uri = Ok parsed ->
  netloc parsed <> "api.govinfo.gov" ->
  (split "/" (path parsed) !! 1 = Some "collections" ->
   supports uri fast = Ok false)
  /\ (split "/" (path parsed) !! 1 <> Some "collections" ->
      raises (supports uri fast)).
Proof.
  intros Hparse Hnet. split.
  - intros Hseg.
    destruct (supports_collections_spec uri fast parsed Hparse Hseg)
      as (b & Hb & Hiff).
    rewrite Hb. destruct b; [|reflexivity]. exfalso. apply Hnet.
    now destruct (proj1 Hiff eq_refl) as (Hn & _).
  - intros Hseg.
    destruct (split "/" (path parsed) !! 1) as [seg|] eqn:Hlk.
    + assert (Hne : seg <> "collections") by congruence.
      eexists. exact (supports_other_segment uri fast parsed seg Hparse Hlk Hne).
    + exists IndexError. unfold supports. rewrite Hparse. run.
      now rewrite (getitem_None _ _ Hlk).
Qed.

(** ** Instantiation *)

(** What a successful [__init__] read from the URI, and the instance it
    built from it. *)
Lemma init_inv (uri : string) (self : GovInfoAPI) :
  __init__ uri = Ok self ->
  exists parsed key keys seg,
    urlparse uri = Ok parsed
    /\ parse_qs (query parsed) !! "api_key" = Some (key :: keys)
    /\ split "/" (path parsed) !! 1 = Some seg
    /\ url self = scheme parsed +:+ "://" +:+ netloc parsed
    /\ api_key self = key
    /\ endpoint self = seg
    /\ _session self = {| cache_name := "govinfo_cache"; backend := "sqlite";
                          kwargs := [("expore_after", 180%Z)] |}
    /\ columns self = _set_columns seg
    /\ ((seg <> "collections" /\ collections_attrs self = None)
        \/ (seg = "collections"
            /\ exists c sd off offs ps pss,
                 split "/" (path parsed) !! 2 = Some c
                 /\ split "/" (path parsed) !! 3 = Some sd
                 /\ parse_qs (query parsed) !! "offset" = Some (off :: offs)
                 /\ parse_qs (query parsed) !! "pageSize" = Some (ps :: pss)
                 /\ collections_attrs self =
                      Some {| collection := c; start_date := sd;
                              end_date :=
                                if (length (split "/" (path parsed)) =? 5)%nat
                                then split "/" (path parsed) !! 4 else None;
                              offset := off; page_size := ps |})).
Proof.
  unfold __init__, dict_getitem, getitem. intros H.
  destruct (urlparse uri) as [parsed|]; [run_in H|discriminate].
  destruct (parse_qs (query parsed) !! "api_key") as [[|key keys]|] eqn:Hkey;
    try discriminate. run_in H. cbn [lookup list_lookup] in H. run_in H.
  destruct (split "/" (path parsed) !! 1) as [seg|] eqn:Hseg;
    [run_in H|discriminate].
  exists parsed, key, keys, seg.
  destruct (String.eqb_spec seg "collections") as [->|Hne].
  - destruct (split "/" (path parsed) !! 2) as [c|] eqn:Hc;
      [run_in H|discriminate].
    destruct (split "/" (path parsed) !! 3) as [sd|] eqn:Hsd;
      [run_in H|discriminate].
    assert (Hend : exists ed,
              (if (length (split "/" (path parsed)) =? 5)%nat
               then Some <$> match split "/" (path parsed) !! 4 with
                             | Some x => Ok x
                             | None => Raise IndexError
                             end
               else Ok None) = Ok ed
              /\ ed = if (length (split "/" (path parsed)) =? 5)%nat
                      then split "/" (path parsed) !! 4 else None).
    { destruct (Nat.eqb_spec (length (split "/" (path parsed))) 5) as [H5|H5].
      - destruct (lookup_lt_is_Some_2 (split "/" (path parsed)) 4 ltac:(lia))
          as [e ->].
        eexists. split; reflexivity.
      - eexists. split; reflexivity. }
    destruct Hend as (ed & Hed & Hedv). rewrite Hed in H. run_in H.
    destruct (parse_qs (query parsed) !! "offset") as [[|off offs]|] eqn:Hoff;
      try discriminate. run_in H. cbn [lookup list_lookup] in H. run_in H.
    destruct (parse_qs (query parsed) !! "pageSize") as [[|ps pss]|] eqn:Hps;
      try discriminate. run_in H. cbn [lookup list_lookup] in H. run_in H.
    injection H as <-. cbn [url api_key endpoint _session columns collections_attrs].
    repeat (split; [first [reflexivity|assumption]|]). right. split; [reflexivity|].
    exists c, sd, off, offs, ps, pss. rewrite <- Hedv.
    repeat (split; [first [reflexivity|assumption]|]). reflexivity.
  - injection H as <-. cbn [url api_key endpoint _session columns collections_attrs].
    repeat (split; [first [reflexivity|assumption]|]). left. split; [exact Hne|reflexivity].
Qed.

(** X5. A URI that [supports] accepts can be instantiated, provided
    [parse_qs] gives every key at least one value, as it does: the instance
    is one of the collections endpoint on [api.govinfo.gov], its
    collection is a spelling of [bills], and its start date and its end
    date, when it has one, decode to a match of [DATE_PATTERN]. *)
Theorem init_after_supports (uri : string) (fast : bool) (parsed : ParseResult) :
  urlparse uri = Ok parsed ->
  (forall k values, parse_qs (query parsed) !! k = Some values -> values <> []) ->
  supports uri fast = Ok true ->
  exists self a,
    __init__ uri = Ok self
    /\ endpoint self = "collections"
    /\ url self = scheme parsed +:+ "://api.govinfo.gov"
    /\ is_Some (columns self)
    /\ collections_attrs self = Some a
    /\ lower (collection a) ∈ COLLECTIONS
    /\ fullmatch DATE_PATTERN (unquote (start_date a)) = true
    /\ (forall e, end_date a = Some e ->
                  fullmatch DATE_PATTERN (unquote e) = true).
Proof.
  intros Hparse Hvalues Htrue.
  assert (Hseg : split "/" (path parsed) !! 1 = Some "collections").
  { destruct (split "/" (path parsed) !! 1) as [seg|] eqn:Hseg.
    - destruct (String.eqb_spec seg "collections") as [->|Hne]; [reflexivity|].
      rewrite (supports_other_segment uri fast parsed seg Hparse Hseg Hne) in Htrue.
      discriminate.
    - unfold supports in Htrue. rewrite Hparse in Htrue. run_in Htrue.
      rewrite (getitem_None _ _ Hseg) in Htrue. discriminate. }
  destruct (supports_collections_spec uri fast parsed Hparse Hseg)
    as (b & Hb & Hiff).
  assert (Hacc : accepted parsed) by (apply Hiff; congruence).
  destruct Hacc as (Hnet & Hlen & (c & Hc & Hcoll) & (sd & Hsd & Hstart) & Hend
                    & [offs Hoff] & [pss Hps] & [keys Hkey]).
  destruct offs as [|off offs]; [now apply Hvalues in Hoff|].
  destruct pss as [|ps pss]; [now apply Hvalues in Hps|].
  destruct keys as [|key keys]; [now apply Hvalues in Hkey|].
  set (a := {| collection := c; start_date := sd;
               end_date :=
                 if (length (split "/" (path parsed)) =? 5)%nat
                 then split "/" (path parsed) !! 4 else None;
               offset := off; page_size := ps |}).
  exists {| url := scheme parsed +:+ "://" +:+ netloc parsed;
            api_key := key; endpoint := "collections";
            collections_attrs := Some a;
            _session := {| cache_name := "govinfo_cache"; backend := "sqlite";
                           kwargs := [("expore_after", 180%Z)] |};
            columns := _set_columns "collections" |}, a.
  split.
  { unfold __init__, dict_getitem. rewrite Hparse. run.
    rewrite Hkey, Hoff, Hps. run.
    rewrite (getitem_Some _ _ _ Hseg), (getitem_Some _ _ _ Hc),
            (getitem_Some _ _ _ Hsd). run.
    cbn [String.eqb Ascii.eqb Bool.eqb]. run. subst a.
    destruct (Nat.eqb_spec (length (split "/" (path parsed))) 5) as [H5|H5].
    - destruct (lookup_lt_is_Some_2 (split "/" (path parsed)) 4 ltac:(lia))
        as [e He].
      rewrite (getitem_Some _ _ _ He), He. run. unfold getitem. reflexivity.
    - run. unfold getitem. reflexivity. }
  cbn [endpoint url columns collections_attrs]. subst a.
  cbn [collection start_date end_date].
  split; [reflexivity|]. split; [now rewrite Hnet|].
  split; [eexists; reflexivity|]. split; [reflexivity|].
  split; [exact Hcoll|]. split; [exact Hstart|].
  intros e. destruct (Nat.eqb_spec (length (split "/" (path parsed))) 5) as [H5|H5];
    [|discriminate].
  intros He. now apply Hend.
Qed.

(** X6. What makes [__init__] fail, in the order it reads the URI: a query
    without [api_key] is a [KeyError] whatever the path is; then a path
    without a first segment is an [IndexError]; then, for the collections
    endpoint, a path of fewer than four elements is an [IndexError] and a
    query without [offset] or [pageSize] a [KeyError]. *)
Theorem init_errors (uri : string) (parsed : ParseResult) :
  urlparse uri = Ok parsed ->
  let query_string := parse_qs (query parsed) in
  let split_path := split "/" (path parsed) in
  (query_string !! "api_key" = None -> __init__ uri = Raise KeyError)
  /\ (forall key keys, query_string !! "api_key" = Some (key :: keys) ->
      (split_path !! 1 = None -> __init__ uri = Raise IndexError)
      /\ (split_path !! 1 = Some "collections" ->
          (length split_path < 4 -> __init__ uri = Raise IndexError)
          /\ (4 <= length split_path ->
              query_string !! "offset" = None
              \/ (exists off offs, query_string !! "offset" = Some (off :: offs))
                 /\ query_string !! "pageSize" = None ->
              __init__ uri = Raise KeyError))).
Proof.
  intros Hparse query_string split_path. subst query_string split_path.
  unfold __init__, dict_getitem. rewrite Hparse. run. split.
  - now intros ->.
  - intros key keys ->. run. cbn [getitem lookup list_lookup]. run. split.
    + intros Hseg. now rewrite (getitem_None _ _ Hseg).
    + intros Hseg. rewrite (getitem_Some _ _ _ Hseg). run.
      cbn [String.eqb Ascii.eqb Bool.eqb]. split.
      * intros Hlen.
        destruct (split "/" (path parsed) !! 2) as [c|] eqn:Hc.
        -- rewrite (getitem_Some _ _ _ Hc). run.
           rewrite (getitem_None _ 3); [reflexivity|].
           apply lookup_ge_None. lia.
        -- now rewrite (getitem_None _ _ Hc).
      * intros Hlen Hmiss.
        destruct (lookup_lt_is_Some_2 (split "/" (path parsed)) 2 ltac:(lia))
          as [c Hc].
        destruct (lookup_lt_is_Some_2 (split "/" (path parsed)) 3 ltac:(lia))
          as [sd Hsd].
        rewrite (getitem_Some _ _ _ Hc), (getitem_Some _ _ _ Hsd). run.
        assert (Hend : exists ed,
                  (if (length (split "/" (path parsed)) =? 5)%nat
                   then Some <$> getitem (split "/" (path parsed)) 4
                   else Ok None) = Ok ed).
        { destruct (Nat.eqb_spec (length (split "/" (path parsed))) 5) as [H5|H5].
          - destruct (lookup_lt_is_Some_2 (split "/" (path parsed)) 4 ltac:(lia))
              as [e He].
            rewrite (getitem_Some _ _ _ He). eexists. reflexivity.
          - eexists. reflexivity. }
        destruct Hend as [ed ->]. run.
        destruct Hmiss as [->|[(off & offs & ->) ->]]; [reflexivity|].
        run. reflexivity.
Qed.

(** X7. The URIs that [__init__] takes: those that [urlparse] takes, whose
    query gives [api_key] a value, whose path has a first segment, and
    which, when that segment is [collections], have at least four path
    elements and values for [offset] and [pageSize]. The host, the name
    of the collection and the two dates are not looked at. *)
Theorem init_succeeds_iff (uri : string) :
  (exists self, __init__ uri = Ok self) <->
  exists parsed seg,
    urlparse uri = Ok parsed
    /\ (exists key keys,
          parse_qs (query parsed) !! "api_key" = Some (key :: keys))
    /\ split "/" (path parsed) !! 1 = Some seg
    /\ (seg = "collections" ->
        4 <= length (split "/" (path parsed))
        /\ (exists off offs,
              parse_qs (query parsed) !! "offset" = Some (off :: offs))
        /\ (exists ps pss,
              parse_qs (query parsed) !! "pageSize" = Some (ps :: pss))).
Proof.
  split.
  - intros [self Hinit].
    destruct (init_inv uri self Hinit)
      as (parsed & key & keys & seg & Hparse & Hkey & Hseg & _ & _ & _ & _ & _
          & Hattrs).
    exists parsed, seg. split; [exact Hparse|]. split; [eauto|].
    split; [exact Hseg|]. intros ->.
    destruct Hattrs as [[Hne _]|[_ (c & sd & off & offs & ps & pss
                                     & _ & Hsd & Hoff & Hps & _)]];
      [contradiction|].
    split; [|eauto 6].
    apply lookup_lt_Some in Hsd. lia.
  - intros (parsed & seg & Hparse & (key & keys & Hkey) & Hseg & Hcoll).
    unfold __init__, dict_getitem. rewrite Hparse. run. rewrite Hkey. run.
    cbn [getitem lookup list_lookup]. run.
    rewrite (getitem_Some _ _ _ Hseg). run.
    destruct (String.eqb_spec seg "collections") as [Heq|_]; [|eauto].
    destruct (Hcoll Heq) as (Hlen & (off & offs & Hoff) & (ps & pss & Hps)).
    destruct (lookup_lt_is_Some_2 (split "/" (path parsed)) 2 ltac:(lia))
      as [c Hc].
    destruct (lookup_lt_is_Some_2 (split "/" (path parsed)) 3 ltac:(lia))
      as [sd Hsd].
    rewrite (getitem_Some _ _ _ Hc), (getitem_Some _ _ _ Hsd). run.
    rewrite Hoff, Hps.
    destruct (Nat.eqb_spec (length (split "/" (path parsed))) 5) as [H5|H5].
    + destruct (lookup_lt_is_Some_2 (split "/" (path parsed)) 4 ltac:(lia))
        as [e He].
      rewrite (getitem_Some _ _ _ He). run.
      cbn [getitem lookup list_lookup]. run. eauto.
    + run. cbn [getitem lookup list_lookup]. run. eauto.
Qed.

(** X8. The instances that [__init__] builds: the collections endpoint, and
    no other, has its five attributes and its columns; the seven columns
    have distinct names, any order is declared for each, and the range
    filter for [last_modified] and [date_issued] alone. *)
Theorem init_columns (uri : string) (self : GovInfoAPI) :
  __init__ uri = Ok self ->
  (endpoint self = "collections" <-> is_Some (collections_attrs self))
  /\ (endpoint self = "collections" <-> exists cols, get_columns self = Ok cols)
  /\ (forall cols, get_columns self = Ok cols ->
        map fst cols =
          ["package_id"; "last_modified"; "package_link"; "doc_class";
           "title"; "congress"; "date_issued"]
        /\ NoDup (map fst cols)
        /\ forall name field, (name, field) ∈ cols ->
             order field = ANY
             /\ (FRange ∈ filters field <->
                 name = "last_modified" \/ name = "date_issued")).
Proof.
  intros Hinit.
  destruct (init_inv uri self Hinit)
    as (parsed & key & keys & seg & _ & _ & _ & _ & _ & Hep & _ & Hcols & Hattrs).
  unfold get_columns. rewrite Hcols, Hep. unfold _set_columns.
  destruct Hattrs as [[Hne ->]|[-> (c & sd & off & offs & ps & pss & _ & _ & _ & _ & ->)]].
  - destruct (String.eqb_spec seg "collections") as [|_]; [contradiction|].
    split; [split; [contradiction|intros [? [=]]]|].
    split; [split; [contradiction|intros [? [=]]]|]. intros cols [=].
  - cbn [String.eqb Ascii.eqb Bool.eqb].
    split; [split; eauto|]. split; [split; eauto|].
    intros cols [= <-]. split; [reflexivity|]. split.
    + cbn [map fst]. compute_done.
    + intros name field Hin. rewrite !elem_of_cons, elem_of_nil in Hin.
      repeat (destruct Hin as [Hin|Hin];
        [injection Hin as -> ->; cbn [order filters];
         split; [reflexivity|];
         rewrite ?elem_of_cons, ?elem_of_nil;
         split; [intros H; repeat (destruct H as [H|H]; try discriminate H);
                 auto; try contradiction
                |intros [H|H]; try discriminate H; auto]|]).
      contradiction.
Qed.

(** ** The request and the rows *)

(** Bring nested appends to one shape: literals unfolded, brackets to the
    right. *)
Ltac norm_append :=
  repeat first [rewrite append_assoc | rewrite append_cons
               | rewrite append_nil_l | rewrite append_nil_r].

(** X9. The URL that [get_rows] requests for an instance built from a URI
    whose path starts with [/]: with four path elements, the URI without
    its query and with a [/] added; with five, the URI without its query,
    as it was written (no escape is decoded); with more, the first four
    elements and a [/], the end date and what follows it being dropped. The
    parameters are the first values of [offset], [pageSize] and [api_key],
    and the GET is sent through [requests.get]. *)
Theorem get_rows_request_url (uri : string) (parsed : ParseResult)
    (self : GovInfoAPI) (bounds : gmap string Filter)
    (order : list (string * RequestedOrder)) :
  urlparse uri = Ok parsed ->
  __init__ uri = Ok self ->
  endpoint self = "collections" ->
  split "/" (path parsed) !! 0 = Some "" ->
  let split_path := split "/" (path parsed) in
  let origin := scheme parsed +:+ "://" +:+ netloc parsed in
  exists request off offs ps pss key keys,
    get_rows_request self bounds order = Ok request
    /\ via request = requests_get
    /\ parse_qs (query parsed) !! "offset" = Some (off :: offs)
    /\ parse_qs (query parsed) !! "pageSize" = Some (ps :: pss)
    /\ parse_qs (query parsed) !! "api_key" = Some (key :: keys)
    /\ req_params request = [("offset", off); ("pageSize", ps); ("api_key", key)]
    /\ (length split_path = 4 ->
        req_url request = origin +:+ path parsed +:+ "/")
    /\ (length split_path = 5 -> req_url request = origin +:+ path parsed)
    /\ (6 <= length split_path ->
        req_url request = origin +:+ join "/" (firstn 4 split_path) +:+ "/").
Proof.
  intros Hparse Hinit Hep H0 split_path origin.
  destruct (init_inv uri self Hinit)
    as (parsed' & key & keys & seg & Hparse' & Hkey & Hseg & Hurl & Hak & Hep'
        & _ & _ & Hattrs).
  assert (parsed' = parsed) by congruence. subst parsed'.
  destruct Hattrs as [[Hne _]|[-> (c & sd & off & offs & ps & pss
                                   & Hc & Hsd & Hoff & Hps & Hattrs)]];
    [congruence|].
  pose proof (join_split "/" (path parsed)) as Hjoin.
  fold split_path in Hjoin, H0, Hseg, Hc, Hsd, Hattrs.
  unfold get_rows_request, attr. rewrite Hep, Hattrs, Hurl, Hak.
  cbn [String.eqb Ascii.eqb Bool.eqb]. run.
  cbn [collection start_date end_date offset page_size].
  eexists. exists off, offs, ps, pss, key, keys.
  split; [reflexivity|]. cbn [via req_params req_url].
  split; [reflexivity|]. split; [exact Hoff|]. split; [exact Hps|].
  split; [exact Hkey|]. split; [reflexivity|].
  fold origin.
  destruct split_path as [|x0 [|x1 [|x2 [|x3 rest]]]]; try discriminate.
  cbn [lookup list_lookup] in H0, Hseg, Hc, Hsd.
  injection H0 as ->. injection Hseg as ->. injection Hc as ->.
  injection Hsd as ->.
  split; [|split].
  - intros Hlen. destruct rest; [|discriminate].
    rewrite <- Hjoin. cbn [length Nat.eqb join]. now norm_append.
  - intros Hlen. destruct rest as [|e [|]]; try discriminate.
    rewrite <- Hjoin. cbn [length Nat.eqb lookup list_lookup join].
    destruct (String.eqb_spec e "") as [->|_]; now norm_append.
  - intros Hlen. destruct rest as [|e [|e' rest]]; cbn [length] in Hlen; try lia.
    cbn [length Nat.eqb firstn join]. now norm_append.
Qed.

(** X10. [__init__] takes a URI of an endpoint other than collections, which
    [supports] refuses; the instance has no columns, and [get_rows] on it
    raises [UnboundLocalError] at its first step, before any request is
    sent, whatever the remote side would answer. *)
Theorem get_rows_other_endpoint (uri : string) (self : GovInfoAPI)
    (bounds : gmap string Filter) (order : list (string * RequestedOrder)) :
  __init__ uri = Ok self ->
  endpoint self <> "collections" ->
  (forall fast, raises (supports uri fast))
  /\ get_columns self = Raise AttributeError
  /\ get_rows_request self bounds order = Raise UnboundLocalError
  /\ next (get_rows self bounds order) = (Raised UnboundLocalError, Finished)
  /\ consume (get_rows self bounds order) = ([], Some UnboundLocalError).
Proof.
  intros Hinit Hne.
  destruct (init_inv uri self Hinit)
    as (parsed & key & keys & seg & Hparse & _ & Hseg & _ & _ & Hep & _ & Hcols & _).
  assert (Hreq : get_rows_request self bounds order = Raise UnboundLocalError).
  { unfold get_rows_request.
    destruct (String.eqb_spec (endpoint self) "collections"); [contradiction|].
    reflexivity. }
  split; [|split; [|split; [exact Hreq|]]].
  - intros fast. eexists.
    apply (supports_other_segment uri fast parsed seg Hparse Hseg). congruence.
  - unfold get_columns. rewrite Hcols. unfold _set_columns.
    destruct (String.eqb_spec seg "collections"); [congruence|reflexivity].
  - unfold get_rows. cbn [next consume]. unfold fetch_records. rewrite Hreq.
    split; reflexivity.
Qed.

Lemma rows_of_None (records : list json) (rows : list Row) :
  rows_of records = (rows, None) <->
  Forall2 (fun record row => row_of_record record = Ok row) records rows.
Proof.
  revert rows. induction records as [|r records IH]; intros rows; simpl.
  - split.
    + intros [= <-]. constructor.
    + intros H. inversion H. reflexivity.
  - destruct (row_of_record r) as [row|e] eqn:Hr.
    + destruct (rows_of records) as [rows' e'] eqn:Hrows. split.
      * intros [= <- ->]. constructor; [exact Hr|]. now apply IH.
      * intros H. inversion H as [|? row0 ? rows0 Hr0 Hrest]; subst.
        apply IH in Hrest. congruence.
    + split; [discriminate|].
      intros H. inversion H; subst. congruence.
Qed.

Lemma rows_of_Some (records : list json) (rows : list Row) (e : exn) :
  rows_of records = (rows, Some e) <->
  exists pre bad post,
    records = pre ++ bad :: post
    /\ Forall2 (fun record row => row_of_record record = Ok row) pre rows
    /\ row_of_record bad = Raise e.
Proof.
  revert rows. induction records as [|r records IH]; intros rows; simpl.
  - split; [discriminate|].
    intros (pre & bad & post & Heq & _). now destruct pre.
  - destruct (row_of_record r) as [row|e0] eqn:Hr.
    + destruct (rows_of records) as [rows' e'] eqn:Hrows. split.
      * intros [= <- ->].
        destruct (proj1 (IH rows') eq_refl) as (pre & bad & post & -> & Hpre & Hbad).
        exists (r :: pre), bad, post. split; [reflexivity|].
        split; [now constructor|exact Hbad].
      * intros (pre & bad & post & Heq & Hpre & Hbad).
        destruct pre as [|r' pre]; simpl in Heq; injection Heq as -> ->.
        { congruence. }
        inversion Hpre as [|? row0 ? rows0 Hr0 Hrest]; subst.
        assert (Hrec : (rows', e') = (rows0, Some e)).
        { apply IH. exists pre, bad, post. split; [reflexivity|]. now split. }
        congruence.
    + split.
      * intros [= <- <-]. exists [], r, records.
        split; [reflexivity|]. split; [constructor|exact Hr].
      * intros (pre & bad & post & Heq & Hpre & Hbad).
        destruct pre as [|r' pre]; simpl in Heq; injection Heq as -> ->.
        -- inversion Hpre. congruence.
        -- inversion Hpre; subst. congruence.
Qed.

(** X11. How an iteration over [get_rows] ends. It ends normally exactly when
    every record of the response has a row, with all the rows in the
    order of the records. It ends with the exception [e] exactly when [e]
    is what the first record without a row raises, after the rows of the
    records before it. *)
Theorem get_rows_outcome (self : GovInfoAPI) (bounds : gmap string Filter)
    (order : list (string * RequestedOrder)) (records : list json) :
  fetch_records self bounds order = Ok records ->
  (forall rows,
     consume (get_rows self bounds order) = (rows, None) <->
     Forall2 (fun record row => row_of_record record = Ok row) records rows)
  /\ (forall rows e,
        consume (get_rows self bounds order) = (rows, Some e) <->
        exists pre bad post,
          records = pre ++ bad :: post
          /\ Forall2 (fun record row => row_of_record record = Ok row) pre rows
          /\ row_of_record bad = Raise e).
Proof.
  intros Hfetch. unfold get_rows. cbn [consume]. rewrite Hfetch.
  split; intros; [apply rows_of_None|apply rows_of_Some].
Qed.

(** X12. When the response is not an object, or its [packages] is not an
    array: an empty object or an empty string in the place of the array
    gives no row and no error; a non-empty object or string, a number, a
    boolean or [null] there, and a response that is no object, raise
    [TypeError] without a row. *)
Theorem get_rows_packages_not_an_array (self : GovInfoAPI)
    (bounds : gmap string Filter) (order : list (string * RequestedOrder))
    (request : Request) (payload : json) :
  get_rows_request self bounds order = Ok request ->
  fetch_json request = Ok payload ->
  ((forall items, payload <> JDict items) ->
   consume (get_rows self bounds order) = ([], Some TypeError))
  /\ (forall packages, subscript payload "packages" = Ok packages ->
      (packages = JDict [] \/ packages = JStr "" ->
       consume (get_rows self bounds order) = ([], None))
      /\ ((forall items, packages <> JList items) ->
          packages <> JDict [] -> packages <> JStr "" ->
          consume (get_rows self bounds order) = ([], Some TypeError))).
Proof.
  intros Hreq Hfetch. unfold get_rows. cbn [consume]. unfold fetch_records.
  rewrite Hreq. run. rewrite Hfetch. run. split.
  - intros Hno. destruct payload; try reflexivity. now destruct (Hno items).
  - intros packages ->. run. split.
    + intros [->| ->]; reflexivity.
    + intros Hl Hd Hs.
      destruct packages as [| | | |s|items|items]; try reflexivity.
      * destruct s as [|c s]; [contradiction|]. reflexivity.
      * now destruct (Hl items).
      * destruct items as [|[k v] items]; [contradiction|]. reflexivity.
Qed.

(** X13. A record without a row: a record that is no object raises
    [TypeError]; an object that lacks [packageId] raises [KeyError]
    whatever else it holds; an object that lacks any of the seven keys
    has no row. *)
Theorem row_of_record_malformed :
  (forall record, (forall items, record <> JDict items) ->
     row_of_record record = Raise TypeError)
  /\ (forall items, assoc "packageId" items = None ->
        row_of_record (JDict items) = Raise KeyError)
  /\ (forall items k,
        k ∈ ["packageId"; "lastModified"; "packageLink"; "docClass"; "title";
             "congress"; "dateIssued"] ->
        assoc k items = None ->
        raises (row_of_record (JDict items))).
Proof.
  split; [|split].
  - intros record Hno. unfold row_of_record.
    destruct record; try reflexivity. now destruct (Hno items).
  - intros items Hnone. unfold row_of_record, subscript. now rewrite Hnone.
  - intros items k Hk Hnone.
    destruct (row_of_record (JDict items)) as [row|e] eqn:Hrow; [|now exists e].
    exfalso. apply row_of_record_Ok in Hrow.
    destruct Hrow as (H1 & (v2 & H2 & _) & H3 & H4 & H5 & (v6 & H6 & _) & H7).
    unfold subscript in *.
    rewrite !elem_of_cons, elem_of_nil in Hk.
    repeat (destruct Hk as [->|Hk]; [rewrite Hnone in *; discriminate|]).
    contradiction.
Qed.
End Adapter.

(** * The adapter on the fixtures *)

Local Abbreviation plain_supports :=
  (supports Plain.urlparse Plain.parse_qs Plain.unquote).
Local Abbreviation plain_init := (__init__ Plain.urlparse Plain.parse_qs).
Local Abbreviation plain_consume payload :=
  (consume Plain.strptime Plain.int (Fixtures.serve payload)).
Local Abbreviation plain_next payload :=
  (next Plain.strptime Plain.int (Fixtures.serve payload)).

(** The instance that [__init__] builds from [Fixtures.collections_uri]. *)
Local Abbreviation fixture_self :=
  {| url := "https://api.govinfo.gov";
     api_key := "44a3270074f30ea5a8f0051941fb6528";
     endpoint := "collections";
     collections_attrs :=
       Some {| collection := "BILLS";
               start_date := "2023-02-28T20%3A18%3A10Z";
               end_date := Some "2023-03-01T20%3A18%3A10Z";
               offset := "0"; page_size := "1" |};
     _session := {| cache_name := "govinfo_cache"; backend := "sqlite";
                    kwargs := [("expore_after", 180%Z)] |};
     columns := _set_columns "collections" |}.

(** [test_supports], its seven URIs in order. *)
Example test_supports :
  map (fun uri => plain_supports uri true)
    [ "https://api.govinfo.gov/collections";
      "https://api.govinfo.gov/collections?api_key=44a3270074f30ea5a8f0051941fb6528";
      "https://api.govinfo.gov/collections/BILLS/2018-01-28T20%3A18%3A10Z?api_key=44a3270074f30ea5a8f0051941fb6528";
      "https://api.govinfo.gov/collections/BILLS/2018-01-28T20%3A18%3A10Z?offset=0&api_key=44a3270074f30ea5a8f0051941fb6528";
      "https://api.govinfo.gov/collections/BILLS/2018-01-28T20%3A18%3A10Z?offset=0&pageSize=1000&api_key=44a3270074f30ea5a8f0051941fb6528";
      "https://api.govinfo.gov/collections/BILLS/2018-01-28T20%3A18%3A10Z/2018-01-29T20%3A18%3A10Z?offset=0&pageSize=1000&api_key=44a3270074f30ea5a8f0051941fb6528";
      "https://api.govinfo.gov/collections/BILLS/2018-01-28T20%3A18%3A10Z/2018-10-21T13:31:42.363926?offset=0&pageSize=1000&api_key=44a3270074f30ea5a8f0051941fb6528" ]
  = [Ok false; Ok false; Ok false; Ok false; Ok true; Ok true; Ok false].
Proof. vm_compute. reflexivity. Qed.

Example test_init : plain_init Fixtures.collections_uri = Ok fixture_self.
Proof. vm_compute. reflexivity. Qed.

(** [test_govinfo_with_data] and [test_govinfo_no_data]. *)
Example test_govinfo_with_data :
  plain_consume Fixtures.response (get_rows fixture_self ∅ [])
  = ([Fixtures.row], None).
Proof. vm_compute. reflexivity. Qed.

Example test_govinfo_no_data :
  plain_consume Fixtures.empty_response (get_rows fixture_self ∅ []) = ([], None).
Proof. vm_compute. reflexivity. Qed.

(** The collection name is matched whatever its case, the endpoint name
    only as it is written. *)
Example supports_case :
  map (fun uri => plain_supports uri true)
    [ "https://api.govinfo.gov/collections/bills/2018-01-28T20:18:10Z?offset=0&pageSize=10&api_key=K";
      "https://api.govinfo.gov/collections/BiLLs/2018-01-28T20:18:10Z?offset=0&pageSize=10&api_key=K";
      "https://api.govinfo.gov/Collections/bills/2018-01-28T20:18:10Z?offset=0&pageSize=10&api_key=K" ]
  = [Ok true; Ok true; Raise ProgrammingError].
Proof. vm_compute. reflexivity. Qed.

(** ** Instances of the theorems *)

Lemma supports_true_iff_accepted_witness :
  let uri := Fixtures.open_ended_uri in
  let parsed :=
    {| scheme := "https"; netloc := "api.govinfo.gov";
       path := "/collections/BILLS/2018-01-28T20%3A18%3A10Z";
       query := "offset=0&pageSize=1000&api_key=44a3270074f30ea5a8f0051941fb6528" |} in
  Plain.urlparse uri = Ok parsed
  /\ (plain_supports uri true = Ok true <->
        split "/" (path parsed) !! 1 = Some "collections"
        /\ accepted Plain.parse_qs Plain.unquote parsed).
Proof.
  intros uri parsed.
  assert (Hparse : Plain.urlparse uri = Ok parsed) by (vm_compute; reflexivity).
  split; [exact Hparse|].
  exact (proj1 (supports_true_iff_accepted Plain.urlparse Plain.parse_qs
                  Plain.unquote uri true parsed Hparse)).
Defined.

Lemma supports_end_date_optional_witness :
  let uri := Fixtures.open_ended_uri in
  let uri' :=
    "https://api.govinfo.gov/collections/BILLS/2018-01-28T20%3A18%3A10Z/2018-01-29T20%3A18%3A10Z?offset=0&pageSize=1000&api_key=44a3270074f30ea5a8f0051941fb6528" in
  let parsed :=
    {| scheme := "https"; netloc := "api.govinfo.gov";
       path := "/collections/BILLS/2018-01-28T20%3A18%3A10Z";
       query := "offset=0&pageSize=1000&api_key=44a3270074f30ea5a8f0051941fb6528" |} in
  Plain.urlparse uri = Ok parsed
  /\ split "/" (path parsed) !! 1 = Some "collections"
  /\ plain_supports uri' true = plain_supports uri true.
Proof.
  intros uri uri' parsed.
  assert (Hparse : Plain.urlparse uri = Ok parsed) by (vm_compute; reflexivity).
  assert (Hseg : split "/" (path parsed) !! 1 = Some "collections") by reflexivity.
  split; [exact Hparse|]. split; [exact Hseg|].
  apply (proj2 (supports_end_date_optional Plain.urlparse Plain.parse_qs
                  Plain.unquote uri true parsed Hparse Hseg) eq_refl uri'
           {| scheme := "https"; netloc := "api.govinfo.gov";
              path := "/collections/BILLS/2018-01-28T20%3A18%3A10Z/2018-01-29T20%3A18%3A10Z";
              query := "offset=0&pageSize=1000&api_key=44a3270074f30ea5a8f0051941fb6528" |}
           "2018-01-29T20%3A18%3A10Z");
    vm_compute; reflexivity.
Defined.

Lemma supports_missing_key_witness :
  let uri :=
    "https://api.govinfo.gov/collections/BILLS/2018-01-28T20%3A18%3A10Z?offset=0&api_key=44a3270074f30ea5a8f0051941fb6528" in
  let parsed :=
    {| scheme := "https"; netloc := "api.govinfo.gov";
       path := "/collections/BILLS/2018-01-28T20%3A18%3A10Z";
       query := "offset=0&api_key=44a3270074f30ea5a8f0051941fb6528" |} in
  Plain.urlparse uri = Ok parsed
  /\ split "/" (path parsed) !! 1 = Some "collections"
  /\ Plain.parse_qs (query parsed) !! "pageSize" = None
  /\ plain_supports uri true = Ok false.
Proof.
  intros uri parsed.
  assert (Hparse : Plain.urlparse uri = Ok parsed) by (vm_compute; reflexivity).
  assert (Hseg : split "/" (path parsed) !! 1 = Some "collections") by reflexivity.
  assert (Hmiss : Plain.parse_qs (query parsed) !! "pageSize" = None)
    by (vm_compute; reflexivity).
  split; [exact Hparse|]. split; [exact Hseg|]. split; [exact Hmiss|].
  apply (supports_missing_key Plain.urlparse Plain.parse_qs Plain.unquote
           uri true parsed Hparse Hseg).
  right. right. exact Hmiss.
Defined.

Lemma supports_empty_path_witness :
  let uri := "https://api.govinfo.gov" in
  let parsed :=
    {| scheme := "https"; netloc := "api.govinfo.gov"; path := ""; query := "" |} in
  Plain.urlparse uri = Ok parsed
  /\ path parsed = ""
  /\ plain_supports uri true = Raise IndexError.
Proof.
  intros uri parsed.
  assert (Hparse : Plain.urlparse uri = Ok parsed) by (vm_compute; reflexivity).
  split; [exact Hparse|]. split; [reflexivity|].
  exact (supports_empty_path Plain.urlparse Plain.parse_qs Plain.unquote
           uri true parsed Hparse eq_refl).
Defined.

Lemma get_rows_bad_last_modified_witness :
  let fetch_json := Fixtures.serve Fixtures.response_with_bad_record in
  fetch_records fetch_json fixture_self ∅ []
    = Ok ([Fixtures.record] ++ Fixtures.record_without_time :: [])
  /\ bad_last_modified Plain.strptime Fixtures.record_without_time ValueError
  /\ exists rows err,
       consume Plain.strptime Plain.int fetch_json (get_rows fixture_self ∅ [])
         = (rows, Some err)
       /\ length rows <= 1.
Proof.
  intros fetch_json.
  assert (Hfetch : fetch_records fetch_json fixture_self ∅ []
            = Ok ([Fixtures.record] ++ Fixtures.record_without_time :: []))
    by (vm_compute; reflexivity).
  assert (Hbad : bad_last_modified Plain.strptime Fixtures.record_without_time
                   ValueError).
  { exists (JStr "2023-03-01"). split; vm_compute; reflexivity. }
  split; [exact Hfetch|]. split; [exact Hbad|].
  destruct (get_rows_bad_last_modified Plain.strptime Plain.int fetch_json
              fixture_self ∅ [] [Fixtures.record] Fixtures.record_without_time []
              ValueError Hfetch Hbad)
    as (rows & err & Hconsume & _ & Hlen & _).
  exists rows, err. split; [exact Hconsume|exact Hlen].
Defined.

Lemma get_rows_no_packages_witness :
  let fetch_json := Fixtures.serve Fixtures.empty_response in
  let request :=
    {| via := requests_get;
       req_url := "https://api.govinfo.gov/collections/BILLS/2023-02-28T20%3A18%3A10Z/2023-03-01T20%3A18%3A10Z";
       req_params := [("offset", "0"); ("pageSize", "1");
                      ("api_key", "44a3270074f30ea5a8f0051941fb6528")] |} in
  get_rows_request fixture_self ∅ [] = Ok request
  /\ fetch_json request = Ok Fixtures.empty_response
  /\ consume Plain.strptime Plain.int fetch_json (get_rows fixture_self ∅ [])
       = ([], None).
Proof.
  intros fetch_json request.
  assert (Hreq : get_rows_request fixture_self ∅ [] = Ok request)
    by (vm_compute; reflexivity).
  split; [exact Hreq|]. split; [reflexivity|].
  apply (proj1 (get_rows_no_packages Plain.strptime Plain.int fetch_json
                  fixture_self ∅ [] request Fixtures.empty_response
                  Hreq eq_refl)).
  reflexivity.
Defined.

Lemma get_rows_bypasses_session_witness :
  let request :=
    {| via := requests_get;
       req_url := "https://api.govinfo.gov/collections/BILLS/2023-02-28T20%3A18%3A10Z/2023-03-01T20%3A18%3A10Z";
       req_params := [("offset", "0"); ("pageSize", "1");
                      ("api_key", "44a3270074f30ea5a8f0051941fb6528")] |} in
  plain_init Fixtures.collections_uri = Ok fixture_self
  /\ get_rows_request fixture_self ∅ [] = Ok request
  /\ via request <> session_get (_get_session fixture_self).
Proof.
  intros request.
  assert (Hinit : plain_init Fixtures.collections_uri = Ok fixture_self)
    by (vm_compute; reflexivity).
  assert (Hreq : get_rows_request fixture_self ∅ [] = Ok request)
    by (vm_compute; reflexivity).
  split; [exact Hinit|]. split; [exact Hreq|].
  exact (proj2 (proj2 (get_rows_bypasses_session Plain.urlparse Plain.parse_qs
                         Fixtures.collections_uri fixture_self ∅ [] request
                         Hinit Hreq))).
Defined.

(** ** Where the code departs from the specification *)

(** C1: a path of six elements is accepted though its fifth element is
    no date. *)
Lemma supports_accepts_beyond_specified :
  let uri :=
    "https://api.govinfo.gov/collections/bills/2018-01-28T20:18:10Z/not-a-date/extra?offset=0&pageSize=10&api_key=K" in
  exists parsed,
    Plain.urlparse uri = Ok parsed
    /\ split "/" (path parsed) !! 1 = Some "collections"
    /\ ~ (plain_supports uri true = Ok true <->
          accepted_as_specified Plain.parse_qs Plain.unquote parsed).
Proof.
  intros uri. eexists. split; [vm_compute; reflexivity|].
  split; [reflexivity|]. intros [Hto _].
  destruct Hto as (_ & _ & _ & _ & Hend & _); [vm_compute; reflexivity|].
  specialize (Hend I "not-a-date" eq_refl). vm_compute in Hend. discriminate.
Qed.

(** C4: a fifth element that is no date, followed by a [/], does not
    keep the URI from being accepted. *)
Lemma supports_accepts_malformed_end_date :
  let uri :=
    "https://api.govinfo.gov/collections/BILLS/2018-01-28T20%3A18%3A10Z/2018-10-21T13:31:42.363926/?offset=0&pageSize=1000&api_key=K" in
  exists parsed e,
    Plain.urlparse uri = Ok parsed
    /\ split "/" (path parsed) !! 1 = Some "collections"
    /\ split "/" (path parsed) !! 4 = Some e
    /\ fullmatch DATE_PATTERN (Plain.unquote e) = false
    /\ plain_supports uri true = Ok true.
Proof.
  intros uri. eexists. exists "2018-10-21T13:31:42.363926".
  split; [vm_compute; reflexivity|].
  repeat split; vm_compute; reflexivity.
Qed.

(** C7: a URI of another endpoint that lacks all three keys is not
    answered with [False]. *)
Lemma supports_missing_key_raises :
  let uri := "https://api.govinfo.gov/packages/BILLS-118hr796ih/summary" in
  exists parsed,
    Plain.urlparse uri = Ok parsed
    /\ Plain.parse_qs (query parsed) !! "api_key" = None
    /\ Plain.parse_qs (query parsed) !! "offset" = None
    /\ Plain.parse_qs (query parsed) !! "pageSize" = None
    /\ plain_supports uri true = Raise NotImplementedError
    /\ plain_supports uri true <> Ok false.
Proof.
  intros uri. eexists. split; [vm_compute; reflexivity|].
  repeat split; try (vm_compute; reflexivity). vm_compute. discriminate.
Qed.

(** C2: the row of the record before the offending one is yielded
    before the exception. *)
Lemma get_rows_yields_before_failing :
  bad_last_modified Plain.strptime Fixtures.record_without_time ValueError
  /\ plain_consume Fixtures.response_with_bad_record (get_rows fixture_self ∅ [])
     = ([Fixtures.row], Some ValueError)
  /\ plain_next Fixtures.response_with_bad_record (get_rows fixture_self ∅ [])
     = (Yield Fixtures.row, Suspended [Fixtures.record_without_time])
  /\ fst (plain_consume Fixtures.response_with_bad_record
            (get_rows fixture_self ∅ [])) <> [].
Proof.
  split.
  { exists (JStr "2023-03-01"). split; vm_compute; reflexivity. }
  repeat split; try (vm_compute; reflexivity). vm_compute. discriminate.
Qed.

(** C3: a response without the key [packages] ends the fetch with
    [KeyError]. *)
Lemma get_rows_without_packages_raises :
  subscript Fixtures.response_without_packages "packages" = Raise KeyError
  /\ plain_consume Fixtures.response_without_packages (get_rows fixture_self ∅ [])
     = ([], Some KeyError)
  /\ plain_next Fixtures.response_without_packages (get_rows fixture_self ∅ [])
     = (Raised KeyError, Finished).
Proof. repeat split; vm_compute; reflexivity. Qed.

(** * Further properties: the in-memory adapter of the tests *)

Lemma fold_left_max_ge (rest : list Z) (i x : Z) :
  x ∈ i :: rest -> (x <= fold_left Z.max rest i)%Z.
Proof.
  revert i x. induction rest as [|j rest IH]; intros i x Hx; simpl.
  - apply list_elem_of_singleton in Hx. lia.
  - assert (Hm : (Z.max i j <= fold_left Z.max rest (Z.max i j))%Z).
    { apply IH. apply elem_of_cons. now left. }
    apply elem_of_cons in Hx as [->|Hx]; [lia|].
    apply elem_of_cons in Hx as [->|Hx]; [lia|].
    apply IH. apply elem_of_cons. now right.
Qed.

Lemma rowids_Ok (data : list FakeAdapter.FakeRow) :
  (forall r, r ∈ data -> is_Some (FakeAdapter.rowid r)) ->
  exists ids, FakeAdapter.rowids data = Ok ids
    /\ (data <> [] -> ids <> [])
    /\ forall r i, r ∈ data -> FakeAdapter.rowid r = Some i -> i ∈ ids.
Proof.
  induction data as [|row data IH]; intros Hall.
  - exists []. split; [reflexivity|]. split; [congruence|].
    intros r i Hr. now apply elem_of_nil in Hr.
  - destruct (Hall row) as [i0 Hi0]; [apply elem_of_cons; now left|].
    destruct IH as (ids & Hids & _ & Hin).
    { intros r Hr. apply Hall. apply elem_of_cons. now right. }
    exists (i0 :: ids). simpl. rewrite Hi0, Hids. split; [reflexivity|].
    split; [discriminate|].
    intros r i Hr Hi. apply elem_of_cons in Hr as [->|Hr].
    + apply elem_of_cons. left. congruence.
    + apply elem_of_cons. right. eauto.
Qed.

Lemma rowids_Raise (data : list FakeAdapter.FakeRow) (r : FakeAdapter.FakeRow) :
  r ∈ data -> FakeAdapter.rowid r = None ->
  FakeAdapter.rowids data = Raise TypeError.
Proof.
  induction data as [|row data IH]; intros Hr Hnone.
  - now apply elem_of_nil in Hr.
  - simpl. apply elem_of_cons in Hr as [<-|Hr].
    + now rewrite Hnone.
    + destruct (FakeAdapter.rowid row); [|reflexivity].
      now rewrite (IH Hr Hnone).
Qed.

(** The maximum that [insert_data] computes bounds every rowid in
    [data]. *)
Lemma max_rowid_bound (data : list FakeAdapter.FakeRow) (m : Z) :
  FakeAdapter.max_rowid data = Ok m ->
  (data = [] -> m = 0%Z)
  /\ forall r, r ∈ data ->
       exists i, FakeAdapter.rowid r = Some i /\ (i <= m)%Z.
Proof.
  intros Hmax. split.
  - intros ->. now injection Hmax.
  - intros r Hr.
    destruct (FakeAdapter.rowid r) as [i|] eqn:Hi.
    + exists i. split; [reflexivity|].
      unfold FakeAdapter.max_rowid in Hmax.
      destruct data as [|row data]; [now apply elem_of_nil in Hr|].
      destruct (FakeAdapter.rowids (row :: data)) as [ids|] eqn:Hids;
        [|discriminate].
      destruct (rowids_Ok (row :: data)) as (ids' & Hids' & _ & Hin).
      { intros r' Hr'. destruct (FakeAdapter.rowid r') eqn:Hn; [eauto|].
        rewrite (rowids_Raise _ _ Hr' Hn) in Hids. discriminate. }
      assert (ids' = ids) by congruence. subst ids'.
      cbn [mbind result_bind] in Hmax.
      destruct ids as [|i0 ids].
      * specialize (Hin r i Hr Hi). now apply elem_of_nil in Hin.
      * injection Hmax as <-. apply fold_left_max_ge. eauto.
    + exfalso. unfold FakeAdapter.max_rowid in Hmax.
      destruct data as [|row data]; [now apply elem_of_nil in Hr|].
      rewrite (rowids_Raise _ _ Hr Hi) in Hmax. discriminate.
Qed.

Lemma filter_all {A : Type} (f : A -> bool) (l : list A) :
  (forall x, x ∈ l -> f x = true) -> List.filter f l = l.
Proof.
  induction l as [|x l IH]; intros Hall; simpl; [reflexivity|].
  rewrite (Hall x) by (apply elem_of_cons; now left).
  rewrite IH; [reflexivity|].
  intros y Hy. apply Hall. apply elem_of_cons. now right.
Qed.

(** X14. [insert_data] of a row whose rowid is [None]. When every row of
    [data] has an int for its rowid, it appends the row under a rowid
    larger than all of them (1 for empty data), so under one that no row
    has, and returns it. When a row of [data] has [None] for its rowid,
    it raises [TypeError]. *)
Theorem insert_data_fresh (data : list FakeAdapter.FakeRow)
    (row : FakeAdapter.FakeRow) :
  FakeAdapter.rowid row = None ->
  ((forall r, r ∈ data -> is_Some (FakeAdapter.rowid r)) ->
   exists row_id,
     FakeAdapter.insert_data data row =
       Ok (row_id,
           data ++ [{| FakeAdapter.rowid := Some row_id;
                       FakeAdapter.cells := FakeAdapter.cells row |}])
     /\ (forall r i, r ∈ data -> FakeAdapter.rowid r = Some i -> (i < row_id)%Z)
     /\ (forall r, r ∈ data -> FakeAdapter.rowid r <> Some row_id)
     /\ (data = [] -> row_id = 1%Z))
  /\ ((exists r, r ∈ data /\ FakeAdapter.rowid r = None) ->
      FakeAdapter.insert_data data row = Raise TypeError).
Proof.
  intros Hnone. unfold FakeAdapter.insert_data. rewrite Hnone. split.
  - intros Hall.
    destruct (FakeAdapter.max_rowid data) as [m|e] eqn:Hmax.
    + destruct (max_rowid_bound data m Hmax) as [Hempty Hbound].
      exists (m + 1)%Z. split; [reflexivity|].
      assert (Hlt : forall r i, r ∈ data -> FakeAdapter.rowid r = Some i ->
                (i < m + 1)%Z).
      { intros r i Hr Hi. destruct (Hbound r Hr) as (i' & Hi' & Hle).
        assert (i' = i) by congruence. lia. }
      split; [exact Hlt|]. split.
      * intros r Hr Heq. specialize (Hlt r _ Hr Heq). lia.
      * intros Hd. rewrite (Hempty Hd). reflexivity.
    + exfalso. unfold FakeAdapter.max_rowid in Hmax.
      destruct data as [|row0 data]; [discriminate|].
      destruct (rowids_Ok (row0 :: data) Hall) as (ids & Hids & Hne & _).
      rewrite Hids in Hmax. cbn [mbind result_bind] in Hmax.
      destruct ids; [now apply Hne|discriminate].
  - intros (r & Hr & Hrn). unfold FakeAdapter.max_rowid.
    destruct data as [|row0 data]; [now apply elem_of_nil in Hr|].
    now rewrite (rowids_Raise _ _ Hr Hrn).
Qed.

(** X15. [delete_data] of the rowid that [insert_data] returned removes the
    row just inserted together with every older row of that rowid, which
    [insert_data] does not look for; after an insertion under [None] it
    gives back the data from before the insertion. *)
Theorem delete_after_insert (data data' : list FakeAdapter.FakeRow)
    (row : FakeAdapter.FakeRow) (row_id : Z) :
  FakeAdapter.insert_data data row = Ok (row_id, data') ->
  FakeAdapter.delete_data data' row_id = FakeAdapter.delete_data data row_id
  /\ (forall r, r ∈ FakeAdapter.delete_data data' row_id ->
        r ∈ data /\ FakeAdapter.rowid r <> Some row_id)
  /\ (FakeAdapter.rowid row = None ->
      FakeAdapter.delete_data data' row_id = data).
Proof.
  intros Hins.
  assert (Hshape : exists row',
            data' = data ++ [row'] /\ FakeAdapter.rowid row' = Some row_id
            /\ (FakeAdapter.rowid row = None ->
                forall r, r ∈ data -> FakeAdapter.rowid r <> Some row_id)).
  { unfold FakeAdapter.insert_data in Hins.
    destruct (FakeAdapter.rowid row) as [i|] eqn:Hrow.
    - injection Hins as <- <-. exists row. repeat split; [exact Hrow|discriminate].
    - destruct (FakeAdapter.max_rowid data) as [m|] eqn:Hmax; [|discriminate].
      cbn [mbind result_bind] in Hins. injection Hins as <- <-.
      eexists. split; [reflexivity|]. split; [reflexivity|].
      intros _ r Hr Heq.
      destruct (proj2 (max_rowid_bound data m Hmax) r Hr) as (i & Hi & Hle).
      assert (i = (m + 1)%Z) by congruence. lia. }
  destruct Hshape as (row' & -> & Hrow' & Hfresh).
  assert (Hdel : FakeAdapter.delete_data (data ++ [row']) row_id
                 = FakeAdapter.delete_data data row_id).
  { unfold FakeAdapter.delete_data. rewrite List.filter_app. simpl.
    rewrite bool_decide_eq_true_2 by exact Hrow'. simpl.
    apply app_nil_r. }
  split; [exact Hdel|]. split.
  - intros r. rewrite Hdel. unfold FakeAdapter.delete_data.
    rewrite list_elem_of_In, List.filter_In, <- list_elem_of_In.
    intros [Hr Hb]. split; [exact Hr|].
    apply negb_true_iff, bool_decide_eq_false in Hb. exact Hb.
  - intros Hnone. rewrite Hdel. unfold FakeAdapter.delete_data.
    apply filter_all. intros r Hr. apply negb_true_iff, bool_decide_eq_false.
    now apply Hfresh.
Qed.

(** ** Instances of the further properties *)

Lemma supports_reads_only_witness :
  let uri1 := Fixtures.open_ended_uri in
  let uri2 :=
    "http://api.govinfo.gov/collections/BILLS/2018-01-28T20%3A18%3A10Z?api_key=none&pageSize=x&offset=y&more=1" in
  let parsed1 :=
    {| scheme := "https"; netloc := "api.govinfo.gov";
       path := "/collections/BILLS/2018-01-28T20%3A18%3A10Z";
       query := "offset=0&pageSize=1000&api_key=44a3270074f30ea5a8f0051941fb6528" |} in
  let parsed2 :=
    {| scheme := "http"; netloc := "api.govinfo.gov";
       path := "/collections/BILLS/2018-01-28T20%3A18%3A10Z";
       query := "api_key=none&pageSize=x&offset=y&more=1" |} in
  Plain.urlparse uri1 = Ok parsed1
  /\ Plain.urlparse uri2 = Ok parsed2
  /\ plain_supports uri1 true = plain_supports uri2 false.
Proof.
  intros uri1 uri2 parsed1 parsed2.
  assert (H1 : Plain.urlparse uri1 = Ok parsed1) by (vm_compute; reflexivity).
  assert (H2 : Plain.urlparse uri2 = Ok parsed2) by (vm_compute; reflexivity).
  split; [exact H1|]. split; [exact H2|].
  apply (supports_reads_only Plain.urlparse Plain.parse_qs Plain.unquote
           uri1 uri2 true false parsed1 parsed2 H1 H2 eq_refl eq_refl).
  intros k Hk. rewrite !elem_of_cons, elem_of_nil in Hk.
  destruct Hk as [->|[->|[->|[]]]];
    (split; intros _; vm_compute; eexists; reflexivity).
Defined.

Lemma supports_foreign_host_witness :
  let uri := "https://example.com/data/2023.csv" in
  let parsed :=
    {| scheme := "https"; netloc := "example.com"; path := "/data/2023.csv";
       query := "" |} in
  Plain.urlparse uri = Ok parsed
  /\ netloc parsed <> "api.govinfo.gov"
  /\ raises (plain_supports uri true).
Proof.
  intros uri parsed.
  assert (Hparse : Plain.urlparse uri = Ok parsed) by (vm_compute; reflexivity).
  assert (Hnet : netloc parsed <> "api.govinfo.gov") by discriminate.
  split; [exact Hparse|]. split; [exact Hnet|].
  apply (proj2 (supports_foreign_host Plain.urlparse Plain.parse_qs Plain.unquote
                  uri true parsed Hparse Hnet)).
  vm_compute. discriminate.
Defined.

Lemma init_after_supports_witness :
  let uri := Fixtures.collections_uri in
  let parsed :=
    {| scheme := "https"; netloc := "api.govinfo.gov";
       path := "/collections/BILLS/2023-02-28T20%3A18%3A10Z/2023-03-01T20%3A18%3A10Z";
       query := "offset=0&pageSize=1&api_key=44a3270074f30ea5a8f0051941fb6528" |} in
  Plain.urlparse uri = Ok parsed
  /\ map_Forall (fun _ values => values <> []) (Plain.parse_qs (query parsed))
  /\ plain_supports uri true = Ok true
  /\ exists self, plain_init uri = Ok self /\ endpoint self = "collections".
Proof.
  intros uri parsed.
  assert (Hparse : Plain.urlparse uri = Ok parsed) by (vm_compute; reflexivity).
  assert (Hvalues : map_Forall (fun _ values => values <> [])
                      (Plain.parse_qs (query parsed))) by compute_done.
  assert (Htrue : plain_supports uri true = Ok true) by (vm_compute; reflexivity).
  split; [exact Hparse|]. split; [exact Hvalues|]. split; [exact Htrue|].
  destruct (init_after_supports Plain.urlparse Plain.parse_qs Plain.unquote
              uri true parsed Hparse
              (fun k values Hk => Hvalues k values Hk) Htrue)
    as (self & a & Hinit & Hep & _).
  exists self. split; [exact Hinit|exact Hep].
Defined.

Lemma init_errors_witness :
  let uri := "https://api.govinfo.gov/collections/BILLS?offset=0&pageSize=10" in
  let parsed :=
    {| scheme := "https"; netloc := "api.govinfo.gov";
       path := "/collections/BILLS"; query := "offset=0&pageSize=10" |} in
  Plain.urlparse uri = Ok parsed
  /\ Plain.parse_qs (query parsed) !! "api_key" = None
  /\ plain_init uri = Raise KeyError.
Proof.
  intros uri parsed.
  assert (Hparse : Plain.urlparse uri = Ok parsed) by (vm_compute; reflexivity).
  assert (Hkey : Plain.parse_qs (query parsed) !! "api_key" = None)
    by (vm_compute; reflexivity).
  split; [exact Hparse|]. split; [exact Hkey|].
  exact (proj1 (init_errors Plain.urlparse Plain.parse_qs uri parsed Hparse) Hkey).
Defined.

Lemma init_columns_witness :
  plain_init Fixtures.collections_uri = Ok fixture_self
  /\ exists cols, get_columns fixture_self = Ok cols /\ length cols = 7.
Proof.
  assert (Hinit : plain_init Fixtures.collections_uri = Ok fixture_self)
    by (vm_compute; reflexivity).
  split; [exact Hinit|].
  destruct (proj1 (proj1 (proj2 (init_columns Plain.urlparse Plain.parse_qs
                                   Fixtures.collections_uri fixture_self Hinit)))
              eq_refl) as [cols Hcols].
  exists cols. split; [exact Hcols|].
  destruct (proj2 (proj2 (init_columns Plain.urlparse Plain.parse_qs
                            Fixtures.collections_uri fixture_self Hinit))
              cols Hcols) as [Hnames _].
  rewrite <- (length_map fst), Hnames. reflexivity.
Defined.

Lemma get_rows_request_url_witness :
  let uri := Fixtures.collections_uri in
  let parsed :=
    {| scheme := "https"; netloc := "api.govinfo.gov";
       path := "/collections/BILLS/2023-02-28T20%3A18%3A10Z/2023-03-01T20%3A18%3A10Z";
       query := "offset=0&pageSize=1&api_key=44a3270074f30ea5a8f0051941fb6528" |} in
  Plain.urlparse uri = Ok parsed
  /\ plain_init uri = Ok fixture_self
  /\ split "/" (path parsed) !! 0 = Some ""
  /\ exists request,
       get_rows_request fixture_self ∅ [] = Ok request
       /\ req_url request =
            "https://api.govinfo.gov/collections/BILLS/2023-02-28T20%3A18%3A10Z/2023-03-01T20%3A18%3A10Z".
Proof.
  intros uri parsed.
  assert (Hparse : Plain.urlparse uri = Ok parsed) by (vm_compute; reflexivity).
  assert (Hinit : plain_init uri = Ok fixture_self) by (vm_compute; reflexivity).
  assert (H0 : split "/" (path parsed) !! 0 = Some "") by reflexivity.
  split; [exact Hparse|]. split; [exact Hinit|]. split; [exact H0|].
  destruct (get_rows_request_url Plain.urlparse Plain.parse_qs uri parsed
              fixture_self ∅ [] Hparse Hinit eq_refl H0)
    as (request & off & offs & ps & pss & key & keys & Hreq & _ & _ & _ & _ & _
        & _ & H5 & _).
  exists request. split; [exact Hreq|]. rewrite (H5 eq_refl). reflexivity.
Defined.

Lemma get_rows_other_endpoint_witness :
  let uri := "https://api.govinfo.gov/packages/BILLS-118hr796ih/summary?api_key=K" in
  let self :=
    {| url := "https://api.govinfo.gov"; api_key := "K"; endpoint := "packages";
       collections_attrs := None;
       _session := {| cache_name := "govinfo_cache"; backend := "sqlite";
                      kwargs := [("expore_after", 180%Z)] |};
       columns := None |} in
  plain_init uri = Ok self
  /\ endpoint self <> "collections"
  /\ plain_consume Fixtures.response (get_rows self ∅ [])
     = ([], Some UnboundLocalError).
Proof.
  intros uri self.
  assert (Hinit : plain_init uri = Ok self) by (vm_compute; reflexivity).
  assert (Hne : endpoint self <> "collections") by discriminate.
  split; [exact Hinit|]. split; [exact Hne|].
  exact (proj2 (proj2 (proj2 (proj2
           (get_rows_other_endpoint Plain.urlparse Plain.parse_qs Plain.unquote
              Plain.strptime Plain.int (Fixtures.serve Fixtures.response)
              uri self ∅ [] Hinit Hne))))).
Defined.

Lemma get_rows_outcome_witness :
  let fetch_json := Fixtures.serve Fixtures.response_with_bad_record in
  fetch_records fetch_json fixture_self ∅ []
    = Ok [Fixtures.record; Fixtures.record_without_time]
  /\ exists pre bad post,
       [Fixtures.record; Fixtures.record_without_time] = pre ++ bad :: post
       /\ Forall2 (fun record row =>
                     row_of_record Plain.strptime Plain.int record = Ok row)
            pre [Fixtures.row]
       /\ row_of_record Plain.strptime Plain.int bad = Raise ValueError.
Proof.
  intros fetch_json.
  assert (Hfetch : fetch_records fetch_json fixture_self ∅ []
            = Ok [Fixtures.record; Fixtures.record_without_time])
    by (vm_compute; reflexivity).
  split; [exact Hfetch|].
  apply (proj2 (get_rows_outcome Plain.strptime Plain.int fetch_json
                  fixture_self ∅ [] _ Hfetch) [Fixtures.row] ValueError).
  vm_compute. reflexivity.
Defined.

Lemma get_rows_packages_not_an_array_witness :
  let payload := JDict [("packages", JDict [("BILLS-118hr796ih", JNull)])] in
  let request :=
    {| via := requests_get;
       req_url := "https://api.govinfo.gov/collections/BILLS/2023-02-28T20%3A18%3A10Z/2023-03-01T20%3A18%3A10Z";
       req_params := [("offset", "0"); ("pageSize", "1");
                      ("api_key", "44a3270074f30ea5a8f0051941fb6528")] |} in
  get_rows_request fixture_self ∅ [] = Ok request
  /\ Fixtures.serve payload request = Ok payload
  /\ plain_consume payload (get_rows fixture_self ∅ []) = ([], Some TypeError).
Proof.
  intros payload request.
  assert (Hreq : get_rows_request fixture_self ∅ [] = Ok request)
    by (vm_compute; reflexivity).
  split; [exact Hreq|]. split; [reflexivity|].
  apply (proj2 (proj2 (get_rows_packages_not_an_array Plain.strptime Plain.int
                         (Fixtures.serve payload) fixture_self ∅ [] request
                         payload Hreq eq_refl)
                  (JDict [("BILLS-118hr796ih", JNull)]) eq_refl));
    discriminate.
Defined.

Lemma insert_data_fresh_witness :
  let row :=
    {| FakeAdapter.rowid := None;
       FakeAdapter.cells := [("name", JStr "Carol"); ("age", JInt 31);
                             ("pets", JInt 2)] |} in
  FakeAdapter.rowid row = None
  /\ (forall r, r ∈ FakeAdapter.initial_data -> is_Some (FakeAdapter.rowid r))
  /\ exists row_id,
       FakeAdapter.insert_data FakeAdapter.initial_data row =
         Ok (row_id,
             FakeAdapter.initial_data
               ++ [{| FakeAdapter.rowid := Some row_id;
                      FakeAdapter.cells := FakeAdapter.cells row |}])
       /\ forall r, r ∈ FakeAdapter.initial_data ->
                    FakeAdapter.rowid r <> Some row_id.
Proof.
  intros row.
  assert (Hall : forall r, r ∈ FakeAdapter.initial_data ->
                   is_Some (FakeAdapter.rowid r)).
  { intros r Hr. unfold FakeAdapter.initial_data in Hr.
    rewrite !elem_of_cons, elem_of_nil in Hr.
    destruct Hr as [->|[->|[]]]; eexists; reflexivity. }
  split; [reflexivity|]. split; [exact Hall|].
  destruct (proj1 (insert_data_fresh FakeAdapter.initial_data row eq_refl) Hall)
    as (row_id & Hins & _ & Hfresh & _).
  exists row_id. split; [exact Hins|exact Hfresh].
Defined.

Lemma delete_after_insert_witness :
  let row :=
    {| FakeAdapter.rowid := None;
       FakeAdapter.cells := [("name", JStr "Carol"); ("age", JInt 31);
                             ("pets", JInt 2)] |} in
  let data' :=
    FakeAdapter.initial_data
      ++ [{| FakeAdapter.rowid := Some 2%Z;
             FakeAdapter.cells := FakeAdapter.cells row |}] in
  FakeAdapter.insert_data FakeAdapter.initial_data row = Ok (2%Z, data')
  /\ FakeAdapter.delete_data data' 2 = FakeAdapter.initial_data.
Proof.
  intros row data'.
  assert (Hins : FakeAdapter.insert_data FakeAdapter.initial_data row
                 = Ok (2%Z, data')) by (vm_compute; reflexivity).
  split; [exact Hins|].
  exact (proj2 (proj2 (delete_after_insert FakeAdapter.initial_data data' row 2
                         Hins)) eq_refl).
Defined.
